(** * ScaBench baseline runner: findings, normalisation, deduplication

    A shallow embedding of [baseline_runner.py] (classes [Finding],
    [AnalysisResult] and [BaselineRunner]) together with the properties
    its specification states about them.

    Conventions of the embedding.
    - A Python [str] is a Rocq [string] holding the UTF-8 bytes of the text,
      so [str.encode()] is the identity on the model.
    - A value produced by [json.loads] is a [json] tree; a Python [dict] is
      an association list in insertion order with distinct keys.
    - An exception is the [Raise] constructor of the result type [exn].
    - What belongs to the Python runtime or to the outside world (the file
      system, [pathlib], the completion service, the JSON parser, the clock)
      is a field of the record [Env]. *)

From Stdlib Require Import ZArith List String Ascii Bool Lia QArith.
From Stdlib Require Import DecimalString.
Import ListNotations.
Local Open Scope string_scope.
Local Open Scope list_scope.
Local Open Scope Z_scope.
Set Warnings "-register-all".

(* ===================================================================== *)
(** ** [hashlib.md5]: RFC 1321 over 32-bit words held in [Z] *)
(* ===================================================================== *)

Module MD5.

Definition wrap32 (x : Z) : Z := x mod 2 ^ 32.

Definition add32 (x y : Z) : Z := wrap32 (x + y).

Definition not32 (x : Z) : Z := 2 ^ 32 - 1 - x.

Definition rotl32 (x : Z) (c : Z) : Z :=
  Z.lor (wrap32 (Z.shiftl x c)) (Z.shiftr x (32 - c)).

(** Per-round left-rotation amounts. *)
Definition shifts : list Z :=
  [7; 12; 17; 22; 7; 12; 17; 22; 7; 12; 17; 22; 7; 12; 17; 22;
   5;  9; 14; 20; 5;  9; 14; 20; 5;  9; 14; 20; 5;  9; 14; 20;
   4; 11; 16; 23; 4; 11; 16; 23; 4; 11; 16; 23; 4; 11; 16; 23;
   6; 10; 15; 21; 6; 10; 15; 21; 6; 10; 15; 21; 6; 10; 15; 21].

(** [floor (2^32 * abs (sin (i + 1)))] for [i = 0 .. 63]. *)
Definition sines : list Z :=
  [3614090360; 3905402710; 606105819; 3250441966;
   4118548399; 1200080426; 2821735955; 4249261313;
   1770035416; 2336552879; 4294925233; 2304563134;
   1804603682; 4254626195; 2792965006; 1236535329;
   4129170786; 3225465664; 643717713; 3921069994;
   3593408605; 38016083; 3634488961; 3889429448;
   568446438; 3275163606; 4107603335; 1163531501;
   2850285829; 4243563512; 1735328473; 2368359562;
   4294588738; 2272392833; 1839030562; 4259657740;
   2763975236; 1272893353; 4139469664; 3200236656;
   681279174; 3936430074; 3572445317; 76029189;
   3654602809; 3873151461; 530742520; 3299628645;
   4096336452; 1126891415; 2878612391; 4237533241;
   1700485571; 2399980690; 4293915773; 2240044497;
   1873313359; 4264355552; 2734768916; 1309151649;
   4149444226; 3174756917; 718787259; 3951481745].

Record regs : Type := Regs { rA : Z; rB : Z; rC : Z; rD : Z }.

Definition init_regs : regs :=
  Regs 1732584193 4023233417 2562383102 271733878.

(** One of the 64 operations of a block; [m] holds its sixteen words. *)
Definition round (m : list Z) (r : regs) (i : nat) : regs :=
  let '(Regs a b c d) := r in
  let f :=
    if (i <? 16)%nat then Z.lor (Z.land b c) (Z.land (not32 b) d)
    else if (i <? 32)%nat then Z.lor (Z.land d b) (Z.land (not32 d) c)
    else if (i <? 48)%nat then Z.lxor b (Z.lxor c d)
    else Z.lxor c (Z.lor b (not32 d)) in
  let g :=
    if (i <? 16)%nat then i
    else if (i <? 32)%nat then ((5 * i + 1) mod 16)%nat
    else if (i <? 48)%nat then ((3 * i + 5) mod 16)%nat
    else ((7 * i) mod 16)%nat in
  let t := add32 (add32 (add32 f a) (nth i sines 0)) (nth g m 0) in
  Regs d (add32 b (rotl32 t (nth i shifts 0))) b c.

(** Little-endian 32-bit words of a block of bytes. *)
Fixpoint words_le (bs : list Z) : list Z :=
  match bs with
  | b0 :: b1 :: b2 :: b3 :: rest =>
      (b0 + 256 * b1 + 65536 * b2 + 16777216 * b3) :: words_le rest
  | _ => []
  end.

Definition process_block (r : regs) (block : list Z) : regs :=
  let r' := fold_left (round (words_le block)) (seq 0 64) r in
  Regs (add32 (rA r) (rA r')) (add32 (rB r) (rB r'))
       (add32 (rC r) (rC r')) (add32 (rD r) (rD r')).

Definition bytes_le (width : nat) (x : Z) : list Z :=
  map (fun k => (x / 256 ^ Z.of_nat k) mod 256) (seq 0 width).

(** Padding: a [0x80] byte, zeros up to 56 modulo 64, the bit length on
    eight bytes. *)
Definition pad (msg : list Z) : list Z :=
  let len := Z.of_nat (List.length msg) in
  let zeros := Z.to_nat ((55 - len) mod 64) in
  msg ++ [128] ++ repeat 0 zeros ++ bytes_le 8 ((8 * len) mod 2 ^ 64).

Fixpoint blocks (fuel : nat) (bs : list Z) : list (list Z) :=
  match fuel, bs with
  | S fuel', _ :: _ => firstn 64 bs :: blocks fuel' (skipn 64 bs)
  | _, _ => []
  end.

Definition digest_regs (msg : list Z) : regs :=
  let p := pad msg in
  fold_left process_block (blocks (List.length p) p) init_regs.

Definition word_bytes (w : Z) : list Z :=
  [w mod 256; (w / 256) mod 256; (w / 65536) mod 256; (w / 16777216) mod 256].

Definition digest (msg : list Z) : list Z :=
  let r := digest_regs msg in
  word_bytes (rA r) ++ word_bytes (rB r) ++ word_bytes (rC r)
             ++ word_bytes (rD r).

Definition hex_digit (n : Z) : ascii :=
  match String.get (Z.to_nat n) "0123456789abcdef" with
  | Some c => c
  | None => "0"%char
  end.

Definition hex_byte (b : Z) : list ascii :=
  [hex_digit (b / 16); hex_digit (b mod 16)].

Definition bytes_of_string (s : string) : list Z :=
  map (fun c => Z.of_N (N_of_ascii c)) (list_ascii_of_string s).

(** [hashlib.md5(data).hexdigest()] *)
Definition hexdigest (data : string) : string :=
  string_of_list_ascii (flat_map hex_byte (digest (bytes_of_string data))).

End MD5.

(* ===================================================================== *)
(** ** Python values and the operations the runner applies to them *)
(* ===================================================================== *)

(** A Python [float]: a finite double by the rational it denotes, or one of
    the three values [json.loads] reads from [Infinity], [-Infinity], [NaN]. *)
Inductive pyfloat : Type :=
| Finite (q : Q)
| PosInf
| NegInf
| NaN.

(** What [json.loads] returns. *)
Inductive json : Type :=
| JNull
| JBool (b : bool)
| JInt (z : Z)
| JFloat (x : pyfloat)
| JStr (s : string)
| JList (l : list json)
| JDict (d : list (string * json)).

(** Outcome of a statement that may raise. *)
Inductive exn (A : Type) : Type :=
| Ok (a : A)
| Raise.
Arguments Ok {A} a.
Arguments Raise {A}.

Definition bind {A B : Type} (c : exn A) (k : A -> exn B) : exn B :=
  match c with
  | Ok a => k a
  | Raise => Raise
  end.

Notation "x <- c ;; k" := (bind c (fun x => k))
  (at level 61, c at next level, right associativity).

(** The body of a [for] loop run on every element; the first exception
    ends the loop. *)
Fixpoint for_each {A B : Type} (body : A -> exn B) (l : list A)
  : exn (list B) :=
  match l with
  | [] => Ok []
  | a :: rest =>
      b <- body a ;;
      bs <- for_each body rest ;;
      Ok (b :: bs)
  end.

(** [d.get(k)] on a dict held as an association list. *)
Fixpoint dict_get {V : Type} (d : list (string * V)) (k : string)
  : option V :=
  match d with
  | [] => None
  | (k', v) :: rest => if String.eqb k' k then Some v else dict_get rest k
  end.

(** [k in d] *)
Definition dict_contains {V : Type} (d : list (string * V)) (k : string)
  : bool :=
  match dict_get d k with
  | Some _ => true
  | None => false
  end.

(** [s[:n]] *)
Fixpoint str_take (n : nat) (s : string) : string :=
  match n, s with
  | S n', String c rest => String c (str_take n' rest)
  | _, _ => EmptyString
  end.

Definition ascii_lower (c : ascii) : ascii :=
  let n := N_of_ascii c in
  if ((65 <=? n) && (n <=? 90))%N then ascii_of_N (n + 32) else c.

(** [s.lower()].  Only the letters [A-Z] change: no character outside ASCII
    lowers to an ASCII letter among [t], [e], [s], the only ones the runner
    looks for afterwards. *)
Fixpoint str_lower (s : string) : string :=
  match s with
  | EmptyString => EmptyString
  | String c rest => String (ascii_lower c) (str_lower rest)
  end.

(** [sub in s] *)
Fixpoint str_contains (sub s : string) : bool :=
  if String.prefix sub s then true
  else match s with
       | EmptyString => false
       | String _ rest => str_contains sub rest
       end.

(** [s.startswith(p)] *)
Definition str_startswith (s p : string) : bool := String.prefix p s.

(** [s[n:]] *)
Fixpoint str_drop (n : nat) (s : string) : string :=
  match n, s with
  | S n', String _ rest => str_drop n' rest
  | _, _ => s
  end.

(** The characters [str.isspace] accepts, by their UTF-8 encodings:
    U+0009..U+000D, U+001C..U+0020; U+0085, U+00A0; U+1680, U+2000..U+200A,
    U+2028, U+2029, U+202F, U+205F, U+3000. *)
Definition space1 (b : N) : bool :=
  ((9 <=? b) && (b <=? 13) || (28 <=? b) && (b <=? 32))%N.

Definition space2 (b1 b2 : N) : bool :=
  ((b1 =? 194) && ((b2 =? 133) || (b2 =? 160)))%N.

Definition space3 (b1 b2 b3 : N) : bool :=
  ((b1 =? 225) && (b2 =? 154) && (b3 =? 128)
   || (b1 =? 226) && (b2 =? 128)
      && ((128 <=? b3) && (b3 <=? 138)
          || (b3 =? 168) || (b3 =? 169) || (b3 =? 175))
   || (b1 =? 226) && (b2 =? 129) && (b3 =? 159)
   || (b1 =? 227) && (b2 =? 128) && (b3 =? 128))%N.

(** [not s.strip()]: every character of [s] is white space. *)
Fixpoint blank (s : string) : bool :=
  match s with
  | EmptyString => true
  | String c1 r1 =>
      if space1 (N_of_ascii c1) then blank r1
      else
        match r1 with
        | String c2 r2 =>
            if space2 (N_of_ascii c1) (N_of_ascii c2) then blank r2
            else
              match r2 with
              | String c3 r3 =>
                  if space3 (N_of_ascii c1) (N_of_ascii c2) (N_of_ascii c3)
                  then blank r3
                  else false
              | EmptyString => false
              end
        | EmptyString => false
        end
  end.

(** [str(z)] for an [int]. *)
Definition str_of_int (z : Z) : string := NilZero.string_of_int (Z.to_int z).

(** Iterating over a value with [for x in v]: the elements of a list, the
    keys of a dict, the characters of a string (here its bytes: the loop
    that follows raises on the first of them, so only whether there is one
    matters); other JSON values are not iterable and raise [TypeError]. *)
Definition py_iter (v : json) : exn (list json) :=
  match v with
  | JList l => Ok l
  | JDict d => Ok (map (fun kv => JStr (fst kv)) d)
  | JStr s =>
      Ok (map (fun c => JStr (String c EmptyString)) (list_ascii_of_string s))
  | _ => Raise
  end.

(** [v.get(key, default)]: only a dict has the method, any other value
    raises [AttributeError]. *)
Definition py_get (v : json) (key : string) (default : json) : exn json :=
  match v with
  | JDict d =>
      match dict_get d key with
      | Some x => Ok x
      | None => Ok default
      end
  | _ => Raise
  end.

(* ===================================================================== *)
(** ** The data model: [Finding] and [AnalysisResult] *)
(* ===================================================================== *)

(** The dataclass [Finding].  The six fields the model answers are whatever
    JSON value the answer holds: the constructor checks none of them. *)
Record Finding : Type := mkFinding {
  title : json;
  description : json;
  vulnerability_type : json;
  severity : json;
  confidence : json;
  location : json;
  file : string;
  id : string;
  reported_by_model : string;
  status : string
}.

(** The dataclass [AnalysisResult]; [token_usage] is a dict. *)
Record AnalysisResult : Type := mkAnalysisResult {
  project : string;
  timestamp : string;
  files_analyzed : nat;
  files_skipped : nat;
  total_findings : nat;
  findings : list Finding;
  token_usage : list (string * Z)
}.

(** The enumeration [Severity]. *)
Definition Severity : list string := ["critical"; "high"; "medium"; "low"].

(* ===================================================================== *)
(** ** The world around the runner *)
(* ===================================================================== *)

(** The [usage] object of a completion; [None] is an attribute that is
    missing or [None]. *)
Record usage : Type := mkUsage {
  prompt_tokens : option Z;
  completion_tokens : option Z
}.

(** What the runner reads from a completion: [usage_obj] is [None] when the
    attribute is missing or falsy, [message_content] is [None] when
    [choices[0].message.content] raises or is [None]. *)
Record completion : Type := mkCompletion {
  usage_obj : option usage;
  message_content : option string
}.

Inductive call_outcome : Type :=
| CallRaises
| CallReturns (c : completion).

(** The values the two messages of a request are built from. *)
Record request : Type := mkRequest {
  req_model : string;
  req_name : string;
  req_suffix : string;
  req_content : string
}.

Record Env : Type := mkEnv {
  (** [pathlib.Path] and its equality *)
  path : Type;
  path_eq_dec : forall a b : path, {a = b} + {a <> b};
  (** [p / s], [p.name], [p.suffix], [p.resolve()] *)
  joinpath : path -> string -> path;
  name : path -> string;
  suffix : path -> string;
  resolve : path -> path;
  (** [list(p.glob(pattern))]; [Raise] for a pattern [glob] refuses *)
  glob : path -> string -> exn (list path);
  (** [p.is_file()] *)
  is_file : path -> bool;
  (** [open(p, 'r', encoding='utf-8').read()]; [None] when it raises *)
  read_text : path -> option string;
  (** [list(set(files))] *)
  set_to_list : list path -> list path;
  (** [client.chat.completions.create], given how many requests came
      before this one *)
  chat_completions_create : nat -> request -> call_outcome;
  (** [json.loads]; [None] when it raises *)
  json_loads : string -> option json;
  (** [str(v)] for a value that is not a string or an integer *)
  str_of_value : json -> string;
  (** [datetime.now().isoformat()] *)
  now_isoformat : string
}.

(** The accumulators of the loop over the files, and the calls of
    [analyze_file] made so far (oldest first). *)
Module Loop.
Record state (P : Type) : Type := mkState {
  all_findings : list Finding;
  files_analyzed : nat;
  files_skipped : nat;
  total_input_tokens : Z;
  total_output_tokens : Z;
  analyzer_calls : list (P * string)
}.
Arguments mkState {P}.
Arguments all_findings {P}.
Arguments files_analyzed {P}.
Arguments files_skipped {P}.
Arguments total_input_tokens {P}.
Arguments total_output_tokens {P}.
Arguments analyzer_calls {P}.
End Loop.

(* ===================================================================== *)
(** ** [Finding.__post_init__] and [BaselineRunner] *)
(* ===================================================================== *)

Section Runner.

Variable E : Env.

(** [self.model_id] *)
Variable model_id : string.

(** How an f-string renders a value. *)
Definition format_value (v : json) : string :=
  match v with
  | JStr s => s
  | JNull => "None"
  | JBool true => "True"
  | JBool false => "False"
  | JInt z => str_of_int z
  | _ => str_of_value E v
  end.

(** [hashlib.md5(f"{file}:{title}".encode()).hexdigest()[:16]] *)
Definition content_id (file : string) (title : json) : string :=
  let id_source := (file ++ ":" ++ format_value title)%string in
  str_take 16 (MD5.hexdigest id_source).

(** [Finding.__post_init__]: an id is generated when none was given. *)
Definition post_init (self : Finding) : Finding :=
  match id self with
  | EmptyString =>
      mkFinding (title self) (description self) (vulnerability_type self)
                (severity self) (confidence self) (location self)
                (file self) (content_id (file self) (title self))
                (reported_by_model self) (status self)
  | String _ _ => self
  end.

(** The generated [__init__]: the fields are stored, then [__post_init__]
    runs. *)
Definition new_Finding
    (title description vulnerability_type severity confidence location : json)
    (file id reported_by_model status : string) : Finding :=
  post_init (mkFinding title description vulnerability_type severity
                       confidence location file id reported_by_model status).

(** "Handle different response formats" *)
Definition findings_data_of (result : json) : json :=
  match result with
  | JList _ => result
  | JDict d =>
      match dict_get d "findings" with
      | Some v => v
      | None =>
          match dict_get d "vulnerabilities" with
          | Some v => v
          | None =>
              if dict_contains d "title" then JList [result] else JList []
          end
      end
  | _ => JList []
  end.

(** The body of the loop "Convert to Finding objects"; [id] and [status]
    keep their defaults [""] and ["proposed"]. *)
Definition finding_of (file_path : path E) (f_data : json) : exn Finding :=
  t <- py_get f_data "title" (JStr "Unknown") ;;
  d <- py_get f_data "description" (JStr "") ;;
  vt <- py_get f_data "vulnerability_type" (JStr "other") ;;
  s <- py_get f_data "severity" (JStr "medium") ;;
  c <- py_get f_data "confidence" (JFloat (Finite (1 # 2))) ;;
  l <- py_get f_data "location" (JStr "unknown") ;;
  Ok (new_Finding t d vt s c l (name E file_path) "" model_id "proposed").

(** From the parsed answer to the findings of the file. *)
Definition normalize (file_path : path E) (result : json)
  : exn (list Finding) :=
  items <- py_iter (findings_data_of result) ;;
  for_each (finding_of file_path) items.

Definition tokens_or_0 (t : option Z) : Z :=
  match t with
  | Some n => n
  | None => 0
  end.

(** The [try] block of [analyze_file]. *)
Definition analyze_file_try (calls_before : nat) (file_path : path E)
    (content : string) : exn (list Finding * Z * Z) :=
  let req := mkRequest model_id (name E file_path) (suffix E file_path)
                       content in
  match chat_completions_create E calls_before req with
  | CallRaises => Raise
  | CallReturns completion =>
      let '(input_tokens, output_tokens) :=
        match usage_obj completion with
        | Some u =>
            (tokens_or_0 (prompt_tokens u), tokens_or_0 (completion_tokens u))
        | None => (0, 0)
        end in
      let result_text :=
        match message_content completion with
        | Some s => s
        | None => ""
        end in
      result <- match result_text with
                | EmptyString => Ok (JDict [])
                | String _ _ =>
                    match json_loads E result_text with
                    | Some v => Ok v
                    | None => Raise
                    end
                end ;;
      findings <- normalize file_path result ;;
      Ok (findings, input_tokens, output_tokens)
  end.

(** [analyze_file]: [except Exception] turns any exception into
    [([], 0, 0)]. *)
Definition analyze_file (calls_before : nat) (file_path : path E)
    (content : string) : list Finding * Z * Z :=
  match analyze_file_try calls_before file_path content with
  | Ok r => r
  | Raise => ([], 0, 0)
  end.

(** [x in files] *)
Definition path_in (x : path E) (files : list (path E)) : bool :=
  if in_dec (path_eq_dec E) x files then true else false.

Definition default_patterns : list string :=
  ["**/*.sol"; "**/*.vy"; "**/*.cairo"; "**/*.rs"; "**/*.move"].

(** One turn of the loop over the given patterns. *)
Definition add_pattern (source_dir : path E) (files : list (path E))
    (pattern : string) : exn (list (path E)) :=
  let pat := if str_startswith pattern "./" then str_drop 2 pattern
             else pattern in
  matches <- glob E source_dir pat ;;
  let files := files ++ matches in
  let direct := joinpath E source_dir pat in
  Ok (if is_file E direct && negb (path_in direct files)
      then files ++ [direct] else files).

(** One turn of the loop over the default patterns. *)
Definition add_default (source_dir : path E) (files : list (path E))
    (pattern : string) : exn (list (path E)) :=
  matches <- glob E source_dir pattern ;;
  Ok (files ++ matches).

Fixpoint fold_exn {A B : Type} (body : A -> B -> exn A) (l : list B) (a : A)
  : exn A :=
  match l with
  | [] => Ok a
  | b :: rest => a' <- body a b ;; fold_exn body rest a'
  end.

(** "Remove duplicates and filter" *)
Definition keep_file (f : path E) : bool :=
  is_file E f && negb (str_contains "test" (str_lower (name E f))).

(** "Find files to analyze" up to the filter. *)
Definition select_files (source_dir : path E)
    (file_patterns : option (list string)) : exn (list (path E)) :=
  files <- match file_patterns with
           | Some ((_ :: _) as patterns) =>
               fold_exn (add_pattern source_dir) patterns []
           | _ => fold_exn (add_default source_dir) default_patterns []
           end ;;
  Ok (filter keep_file (set_to_list E files)).

(** The body of [for file_path in files].  [analyze_file] returns on every
    input, so the [except] of the loop is reached from [open] and [read]
    only. *)
Definition process_file (st : Loop.state (path E)) (file_path : path E)
  : Loop.state (path E) :=
  match read_text E file_path with
  | Some content =>
      if blank content then
        Loop.mkState (Loop.all_findings st) (Loop.files_analyzed st)
                     (S (Loop.files_skipped st))
                     (Loop.total_input_tokens st)
                     (Loop.total_output_tokens st) (Loop.analyzer_calls st)
      else
        let '(findings, input_tokens, output_tokens) :=
          analyze_file (List.length (Loop.analyzer_calls st)) file_path
                       content in
        Loop.mkState (Loop.all_findings st ++ findings)
                     (S (Loop.files_analyzed st)) (Loop.files_skipped st)
                     (Loop.total_input_tokens st + input_tokens)
                     (Loop.total_output_tokens st + output_tokens)
                     (Loop.analyzer_calls st ++ [(file_path, content)])
  | None =>
      Loop.mkState (Loop.all_findings st) (Loop.files_analyzed st)
                   (S (Loop.files_skipped st)) (Loop.total_input_tokens st)
                   (Loop.total_output_tokens st) (Loop.analyzer_calls st)
  end.

Definition initial_state : Loop.state (path E) :=
  Loop.mkState [] 0%nat 0%nat 0 0 [].

Definition analyze_files (files : list (path E)) : Loop.state (path E) :=
  fold_left process_file files initial_state.

(** One turn of "Deduplicate findings": [unique_findings] is a dict in
    insertion order. *)
Definition dedup_step (unique_findings : list (string * Finding))
    (finding : Finding) : list (string * Finding) :=
  if dict_contains unique_findings (id finding) then unique_findings
  else unique_findings ++ [(id finding, finding)].

Definition deduplicate (all_findings : list Finding)
  : list (string * Finding) :=
  fold_left dedup_step all_findings [].

(** [list(d.values())] *)
Definition dict_values {V : Type} (d : list (string * V)) : list V :=
  map snd d.

Definition make_token_usage (input_tokens output_tokens : Z)
  : list (string * Z) :=
  [("input_tokens", input_tokens); ("output_tokens", output_tokens);
   ("total_tokens", input_tokens + output_tokens)].

(** [analyze_project] on the selected files: the result and the calls of
    [analyze_file] it made. *)
Definition analyze_selected (project_name : string) (files : list (path E))
  : AnalysisResult * list (path E * string) :=
  match files with
  | [] =>
      (mkAnalysisResult project_name (now_isoformat E) 0 0 0 []
         [("input_tokens", 0); ("output_tokens", 0); ("total_tokens", 0)],
       [])
  | _ :: _ =>
      let st := analyze_files files in
      let unique_findings := deduplicate (Loop.all_findings st) in
      (mkAnalysisResult project_name (now_isoformat E)
         (Loop.files_analyzed st) (Loop.files_skipped st)
         (List.length unique_findings) (dict_values unique_findings)
         (make_token_usage (Loop.total_input_tokens st)
                           (Loop.total_output_tokens st)),
       Loop.analyzer_calls st)
  end.

(** [BaselineRunner.analyze_project] *)
Definition analyze_project (project_name : string) (source_dir : path E)
    (file_patterns : option (list string))
  : exn (AnalysisResult * list (path E * string)) :=
  files <- select_files source_dir file_patterns ;;
  Ok (analyze_selected project_name files).

End Runner.

(* ===================================================================== *)
(** ** A small world to run the runner in *)
(* ===================================================================== *)

(** A directory [proj] with seven entries; paths are their text.
    [Link.sol] is a symbolic link to [Vault.sol], [Locked.sol] cannot be
    read, [Empty.sol] holds white space only, the service fails on
    [Broken.sol] and answers out of range on [Bad.sol]. *)
Module Demo.

Definition quote : string := String (ascii_of_nat 34) EmptyString.

Definition concat_all (parts : list string) : string :=
  fold_right String.append EmptyString parts.

(** The text [{"vulnerabilities":[{"title":"X"}]}] *)
Definition vault_answer : string :=
  concat_all ["{"; quote; "vulnerabilities"; quote; ":[{"; quote; "title";
              quote; ":"; quote; "X"; quote; "}]}"].

(** The text [{"findings":[{"title":"Y","severity":"bogus","confidence":7}]}] *)
Definition bad_answer : string :=
  concat_all ["{"; quote; "findings"; quote; ":[{"; quote; "title"; quote;
              ":"; quote; "Y"; quote; ","; quote; "severity"; quote; ":";
              quote; "bogus"; quote; ","; quote; "confidence"; quote;
              ":7}]}"].

Definition vault_json : json :=
  JDict [("vulnerabilities", JList [JDict [("title", JStr "X")]])].

Definition bad_candidate : json :=
  JDict [("title", JStr "Y"); ("severity", JStr "bogus");
         ("confidence", JInt 7)].

Definition bad_json : json := JDict [("findings", JList [bad_candidate])].

Definition entries : list string :=
  ["proj/Vault.sol"; "proj/Link.sol"; "proj/Empty.sol"; "proj/Broken.sol";
   "proj/Bad.sol"; "proj/VaultTest.sol"; "proj/Locked.sol"].

Fixpoint basename (p : string) : string :=
  match p with
  | EmptyString => EmptyString
  | String c rest =>
      if str_contains "/" p then basename rest else p
  end.

Definition demo_joinpath (dir s : string) : string :=
  (dir ++ "/" ++ s)%string.

Definition demo_resolve (p : string) : string :=
  if String.eqb p "proj/Link.sol" then "proj/Vault.sol" else p.

Definition demo_is_file (p : string) : bool :=
  if in_dec string_dec p entries then true else false.

Definition demo_glob (dir pattern : string) : exn (list string) :=
  if String.eqb pattern "" then Raise
  else if String.eqb dir "proj" then
    if String.eqb pattern "**/*.sol" then Ok entries
    else Ok (filter (fun p => String.eqb (basename p) pattern) entries)
  else Ok [].

Definition demo_read_text (p : string) : option string :=
  if String.eqb p "proj/Locked.sol" then None
  else if String.eqb p "proj/Empty.sol" then Some "   "
  else if demo_is_file p then
    Some ("contract " ++ basename p ++ " {}")%string
  else None.

Definition demo_create (calls_before : nat) (req : request) : call_outcome :=
  if String.eqb (req_name req) "Broken.sol" then CallRaises
  else if String.eqb (req_name req) "Bad.sol" then
    CallReturns (mkCompletion None (Some bad_answer))
  else
    CallReturns (mkCompletion (Some (mkUsage (Some 120) (Some 30)))
                              (Some vault_answer)).

Definition demo_json_loads (text : string) : option json :=
  if String.eqb text vault_answer then Some vault_json
  else if String.eqb text bad_answer then Some bad_json
  else None.

Definition world : Env :=
  mkEnv string string_dec demo_joinpath basename (fun _ => ".sol")
        demo_resolve demo_glob demo_is_file demo_read_text
        (nodup string_dec) demo_create demo_json_loads (fun _ => "?")
        "2025-01-01T00:00:00".

Definition selected : list string :=
  ["proj/Vault.sol"; "proj/Link.sol"; "proj/Empty.sol"; "proj/Broken.sol";
   "proj/Bad.sol"; "proj/Locked.sol"].

(** The finding of [Vault.sol]. *)
Definition vault_finding : Finding :=
  Eval vm_compute in
    new_Finding world (JStr "X") (JStr "") (JStr "other") (JStr "medium")
                (JFloat (Finite (1 # 2))) (JStr "unknown") "Vault.sol" ""
                "gpt-5-mini" "proposed".

(** The run of [analyze_project] on [proj] with the default patterns. *)
Definition run : AnalysisResult * list (string * string) :=
  Eval vm_compute in analyze_selected world "gpt-5-mini" "demo" selected.

End Demo.

(* ===================================================================== *)
(** ** What the specification says, as predicates *)
(* ===================================================================== *)



(** [d.get(key, default)] on the pairs of a dict. *)
Definition get_or {V : Type} (d : list (string * V)) (key : string)
    (default : V) : V :=
  match dict_get d key with
  | Some v => v
  | None => default
  end.

(** The finding [finding_of] builds from a candidate that is a dict with
    the pairs [d]. *)
Definition finding_of_dict (E : Env) (model_id : string)
    (file_path : path E) (d : list (string * json)) : Finding :=
  new_Finding E
    (get_or d "title" (JStr "Unknown"))
    (get_or d "description" (JStr ""))
    (get_or d "vulnerability_type" (JStr "other"))
    (get_or d "severity" (JStr "medium"))
    (get_or d "confidence" (JFloat (Finite (1 # 2))))
    (get_or d "location" (JStr "unknown"))
    (name E file_path) "" model_id "proposed".

(** The first element of [l] that satisfies [p] is [find p l]; here the
    first finding with a given id. *)
Definition first_with_id (i : string) (l : list Finding) : option Finding :=
  find (fun f => String.eqb (id f) i) l.

(** Every entry of the mapping is stored under the id of its finding. *)
Definition keyed_by_id (u : list (string * Finding)) : Prop :=
  Forall (fun kv => id (snd kv) = fst kv) u.

(** What [list(set(files))] promises: the same elements, each once. *)
Definition set_semantics (E : Env) : Prop :=
  forall files : list (path E),
    NoDup (set_to_list E files)
    /\ (forall f, In f (set_to_list E files) <-> In f files).

(** The files the loop passes to [analyze_file]: those read without error
    whose content is not blank. *)
Definition submitted (E : Env) (f : path E) : bool :=
  match read_text E f with
  | Some content => negb (blank content)
  | None => false
  end.

(* ===================================================================== *)
(** ** Python truth values, item assignment and dict keys *)
(* ===================================================================== *)

(** [bool(v)] *)
Definition py_truthy (v : json) : bool :=
  match v with
  | JNull => false
  | JBool b => b
  | JInt z => negb (z =? 0)
  | JFloat (Finite q) => negb (Qeq_bool q 0)
  | JFloat _ => true
  | JStr s => negb (String.eqb s "")
  | JList l => match l with [] => false | _ :: _ => true end
  | JDict d => match d with [] => false | _ :: _ => true end
  end.

(** [d[k] = v] on a dict with string keys: the value of an existing key is
    replaced where it stands, a new key goes to the end. *)
Fixpoint dict_set {V : Type} (d : list (string * V)) (k : string) (v : V)
  : list (string * V) :=
  match d with
  | [] => [(k, v)]
  | (k', v') :: rest =>
      if String.eqb k' k then (k', v) :: rest
      else (k', v') :: dict_set rest k v
  end.

(** [c[k] = v] for a string [k]: only a dict accepts it, a list wants an
    integer index and the other values have no item assignment. *)
Definition py_setitem (c : json) (k : string) (v : json) : exn json :=
  match c with
  | JDict d => Ok (JDict (dict_set d k v))
  | _ => Raise
  end.

(** Lists and dicts cannot be dict keys. *)
Definition py_hashable (v : json) : bool :=
  match v with
  | JList _ | JDict _ => false
  | _ => true
  end.

(** The number a value compares as: [True] is 1, [False] is 0, an [int]
    and a finite [float] are their value. *)
Definition py_number (v : json) : option Q :=
  match v with
  | JBool true => Some 1%Q
  | JBool false => Some 0%Q
  | JInt z => Some (inject_Z z)
  | JFloat (Finite q) => Some q
  | _ => None
  end.

(** Whether two hashable values are the same dict key.  Numbers are one key
    when they are equal ([1], [1.0] and [True]); [json.loads] returns one
    and the same object for every [NaN], which a dict finds by identity. *)
Definition py_key_eqb (a b : json) : bool :=
  match py_number a, py_number b with
  | Some x, Some y => Qeq_bool x y
  | None, None =>
      match a, b with
      | JNull, JNull => true
      | JStr s, JStr t => String.eqb s t
      | JFloat PosInf, JFloat PosInf => true
      | JFloat NegInf, JFloat NegInf => true
      | JFloat NaN, JFloat NaN => true
      | _, _ => false
      end
  | _, _ => false
  end.

(** [d.get(k)] and [d[k] = v] on a dict whose keys are any hashable
    values. *)
Fixpoint key_get {V : Type} (d : list (json * V)) (k : json) : option V :=
  match d with
  | [] => None
  | (k', v) :: rest => if py_key_eqb k' k then Some v else key_get rest k
  end.

Fixpoint key_set {V : Type} (d : list (json * V)) (k : json) (v : V)
  : list (json * V) :=
  match d with
  | [] => [(k, v)]
  | (k', v') :: rest =>
      if py_key_eqb k' k then (k', v) :: rest
      else (k', v') :: key_set rest k v
  end.

(* ===================================================================== *)
(** ** [BaselineRunner._print_summary] *)
(* ===================================================================== *)

Definition ascii_upper (c : ascii) : ascii :=
  let n := N_of_ascii c in
  if ((97 <=? n) && (n <=? 122))%N then ascii_of_N (n - 32) else c.

(** [s.capitalize()] on ASCII text. *)
Definition capitalize (s : string) : string :=
  match s with
  | EmptyString => EmptyString
  | String c rest => String (ascii_upper c) (str_lower rest)
  end.

(** A comma before every group of three digits, on the digits read from
    the right; [k] digits of the current group are out already. *)
Fixpoint group3 (rev_digits : list ascii) (k : nat) : list ascii :=
  match rev_digits with
  | [] => []
  | c :: rest =>
      match k with
      | 3%nat => ","%char :: c :: group3 rest 1
      | _ => c :: group3 rest (S k)
      end
  end.

(** [f"{z:,}"] *)
Definition format_commas (z : Z) : string :=
  let digits := list_ascii_of_string (str_of_int (Z.abs z)) in
  let grouped := string_of_list_ascii (rev (group3 (rev digits) 0)) in
  if z <? 0 then String "-"%char grouped else grouped.

(** One turn of the loop "Count by severity":
    [severity_counts[sev] = severity_counts.get(sev, 0) + 1]. *)
Definition count_severity (severity_counts : list (json * Z))
    (finding : Finding) : exn (list (json * Z)) :=
  let sev := severity finding in
  if py_hashable sev then
    Ok (key_set severity_counts sev
          (match key_get severity_counts sev with
           | Some n => n
           | None => 0
           end + 1))
  else Raise.

Definition severity_counts_of (findings : list Finding)
  : exn (list (json * Z)) :=
  fold_exn count_severity findings [].

(** The colour of a member of [Severity]. *)
Definition severity_color (sev : string) : string :=
  if String.eqb sev "critical" then "red"
  else if String.eqb sev "high" then "orange1"
  else if String.eqb sev "medium" then "yellow"
  else "green".

(** The line printed for one member of [Severity], when it was counted. *)
Definition severity_row (severity_counts : list (json * Z)) (sev : string)
  : list string :=
  match key_get severity_counts (JStr sev) with
  | Some n =>
      [("    [" ++ severity_color sev ++ "]" ++ capitalize sev ++ ":[/"
        ++ severity_color sev ++ "] " ++ str_of_int n)%string]
  | None => []
  end.

Definition newline : string := String (ascii_of_nat 10) EmptyString.

(** [_print_summary]: the texts given to [console.print], in order, and
    whether the method returned or raised. *)
Definition print_summary (result : AnalysisResult)
  : list string * exn unit :=
  let head :=
    [(newline ++ "[bold]Summary for " ++ project result ++ ":[/bold]")%string;
     ("  Files analyzed: "
      ++ str_of_int (Z.of_nat (files_analyzed result)))%string;
     ("  Files skipped: "
      ++ str_of_int (Z.of_nat (files_skipped result)))%string;
     ("  Total findings: "
      ++ str_of_int (Z.of_nat (total_findings result)))%string] in
  match dict_get (token_usage result) "total_tokens" with
  | None => (head, Raise)
  | Some total =>
      let head := head ++ [("  Token usage: " ++ format_commas total)%string] in
      match findings result with
      | [] => (head, Ok tt)
      | _ :: _ =>
          match severity_counts_of (findings result) with
          | Raise => (head, Raise)
          | Ok severity_counts =>
              (head ++ ["  By severity:"]
                    ++ flat_map (severity_row severity_counts) Severity,
               Ok tt)
          end
      end
  end.

(** [analyze_project] with its last step: after the result is built the
    summary is printed, and an exception of [_print_summary] leaves
    [analyze_project] in place of the result.  The early return for an
    empty selection prints no summary. *)
Definition analyze_project_and_report (E : Env) (model_id : string)
    (project_name : string) (source_dir : path E)
    (file_patterns : option (list string))
  : exn (AnalysisResult * list (path E * string)) :=
  files <- select_files E source_dir file_patterns ;;
  match files with
  | [] => Ok (analyze_selected E model_id project_name files)
  | _ :: _ =>
      let run := analyze_selected E model_id project_name files in
      match snd (print_summary (fst run)) with
      | Ok _ => Ok run
      | Raise => Raise
      end
  end.

(* ===================================================================== *)
(** ** [BaselineRunner.save_result] *)
(* ===================================================================== *)

(** [asdict(f)] for a [Finding] *)
Definition finding_asdict (f : Finding) : json :=
  JDict [("title", title f); ("description", description f);
         ("vulnerability_type", vulnerability_type f);
         ("severity", severity f); ("confidence", confidence f);
         ("location", location f); ("file", JStr (file f));
         ("id", JStr (id f));
         ("reported_by_model", JStr (reported_by_model f));
         ("status", JStr (status f))].

(** [asdict(result)]: the fields in the order of the class, the findings
    and the token counts converted in turn. *)
Definition result_asdict (r : AnalysisResult) : list (string * json) :=
  [("project", JStr (project r)); ("timestamp", JStr (timestamp r));
   ("files_analyzed", JInt (Z.of_nat (files_analyzed r)));
   ("files_skipped", JInt (Z.of_nat (files_skipped r)));
   ("total_findings", JInt (Z.of_nat (total_findings r)));
   ("findings", JList (map finding_asdict (findings r)));
   ("token_usage",
    JDict (map (fun kv => (fst kv, JInt (snd kv))) (token_usage r)))].

(** "Convert to dict for JSON serialization" *)
Definition result_dict (r : AnalysisResult) : list (string * json) :=
  dict_set (result_asdict r) "findings"
           (JList (map finding_asdict (findings r))).





(* ===================================================================== *)
(** ** [BaselineRunner.__init__] and the configuration built by [main] *)
(* ===================================================================== *)

Module Config.

(** The attributes [__init__] sets; [client_key] is the [api_key] argument
    the client was built with, [None] for [OpenAI()]. *)
Record runner : Type := mkRunner {
  config : list (string * json);
  model_id : json;
  reasoning_effort : json;
  api_key : json;
  client_key : option json
}.

(** The values [main] reads from the command line: [model] and
    [reasoning_effort] have defaults, [config_file] is what [json.load]
    returned for [--config]. *)
Record args : Type := mkArgs {
  model : string;
  api_key_arg : option string;
  reasoning_effort_arg : string;
  config_file : option json
}.

(** [BaselineRunner.__init__]: [getenv_key] is
    [os.getenv("OPENAI_API_KEY")], [client_ok] tells whether the
    constructor of the client returns. *)
Definition init (getenv_key : option string)
    (client_ok : option json -> bool)
    (config_arg : option (list (string * json))) : exn runner :=
  let config := match config_arg with
                | Some ((_ :: _) as d) => d
                | _ => []
                end in
  let model_id := get_or config "model" (JStr "gpt-5-mini") in
  let reasoning_effort := get_or config "reasoning_effort" (JStr "high") in
  let from_config := get_or config "api_key" JNull in
  let api_key :=
    if py_truthy from_config then from_config
    else match getenv_key with
         | Some s => JStr s
         | None => JNull
         end in
  let client_key := if py_truthy api_key then Some api_key else None in
  if client_ok client_key then
    Ok (mkRunner config model_id reasoning_effort api_key client_key)
  else Raise.

(** "Load configuration" and "Override with command line arguments". *)
Definition main_config (a : args) : exn json :=
  let config := match config_file a with
                | Some loaded => loaded
                | None => JDict []
                end in
  config <- (if negb (String.eqb (model a) "")
             then py_setitem config "model" (JStr (model a))
             else Ok config) ;;
  config <- (match api_key_arg a with
             | Some (String c rest) =>
                 py_setitem config "api_key" (JStr (String c rest))
             | _ => Ok config
             end) ;;
  py_setitem config "reasoning_effort" (JStr (reasoning_effort_arg a)).

(** [BaselineRunner(config)] on the configuration of [main]. *)
Definition main_runner (getenv_key : option string)
    (client_ok : option json -> bool) (a : args) : exn runner :=
  config <- main_config a ;;
  match config with
  | JDict d => init getenv_key client_ok (Some d)
  | _ => Raise
  end.

End Config.

(* ===================================================================== *)
(** ** A second small world *)
(* ===================================================================== *)

(** Two directories.  In [src] the service answers two candidates for
    [Pool.sol], a candidate and a bare string for [Mixed.sol], nothing for
    [Silent.sol], [findings: null] beside a list of [vulnerabilities] for
    [Shadow.sol], and an empty text for [a[1].sol], a name no glob
    matches.  In [odd] the answer for [List.sol] gives a list as the
    severity. *)
Module Demo2.

Definition q (s : string) : string := (Demo.quote ++ s ++ Demo.quote)%string.

(** [{"findings":[{"title":"A"},{"title":"B","severity":"high"}]}] *)
Definition pool_answer : string :=
  Demo.concat_all ["{"; q "findings"; ":[{"; q "title"; ":"; q "A"; "},{";
                   q "title"; ":"; q "B"; ","; q "severity"; ":"; q "high";
                   "}]}"].

(** [{"findings":[{"title":"A"},"oops"]}] *)
Definition mixed_answer : string :=
  Demo.concat_all ["{"; q "findings"; ":[{"; q "title"; ":"; q "A"; "},";
                   q "oops"; "]}"].

(** [{"findings":null,"vulnerabilities":[{"title":"B"}]}] *)
Definition shadow_answer : string :=
  Demo.concat_all ["{"; q "findings"; ":null,"; q "vulnerabilities"; ":[{";
                   q "title"; ":"; q "B"; "}]}"].

(** [{"findings":[{"title":"C","severity":["high"]}]}] *)
Definition list_answer : string :=
  Demo.concat_all ["{"; q "findings"; ":[{"; q "title"; ":"; q "C"; ",";
                   q "severity"; ":["; q "high"; "]}]}"].

Definition pool_dicts : list (list (string * json)) :=
  [[("title", JStr "A")]; [("title", JStr "B"); ("severity", JStr "high")]].

Definition pool_json : json :=
  JDict [("findings", JList (map JDict pool_dicts))].

Definition mixed_json : json :=
  JDict [("findings", JList [JDict [("title", JStr "A")]; JStr "oops"])].

Definition shadow_json : json :=
  JDict [("findings", JNull);
         ("vulnerabilities", JList [JDict [("title", JStr "B")]])].

Definition list_json : json :=
  JDict [("findings",
          JList [JDict [("title", JStr "C");
                        ("severity", JList [JStr "high"])]])].

Definition entries : list string :=
  ["src/Pool.sol"; "src/Mixed.sol"; "src/Silent.sol"; "src/Shadow.sol";
   "src/a[1].sol"; "odd/List.sol"].

Definition demo_is_file (p : string) : bool :=
  if in_dec string_dec p entries then true else false.

Definition demo_glob (dir pattern : string) : exn (list string) :=
  if String.eqb pattern "" then Raise
  else if String.eqb pattern "**/*.sol" then
    Ok (filter (String.prefix (dir ++ "/")) entries)
  else if str_contains "[" pattern || str_contains "*" pattern then Ok []
  else Ok (filter (String.eqb (dir ++ "/" ++ pattern)) entries).

Definition demo_read_text (p : string) : option string :=
  if demo_is_file p then
    Some ("contract " ++ Demo.basename p ++ " {}")%string
  else None.

Definition demo_create (calls_before : nat) (req : request) : call_outcome :=
  if String.eqb (req_name req) "Pool.sol" then
    CallReturns (mkCompletion (Some (mkUsage (Some 100) (Some 20)))
                              (Some pool_answer))
  else if String.eqb (req_name req) "Mixed.sol" then
    CallReturns (mkCompletion (Some (mkUsage (Some 50) (Some 10)))
                              (Some mixed_answer))
  else if String.eqb (req_name req) "Silent.sol" then
    CallReturns (mkCompletion (Some (mkUsage (Some 7) None)) None)
  else if String.eqb (req_name req) "Shadow.sol" then
    CallReturns (mkCompletion None (Some shadow_answer))
  else if String.eqb (req_name req) "List.sol" then
    CallReturns (mkCompletion None (Some list_answer))
  else CallReturns (mkCompletion None (Some "")).

Definition demo_json_loads (text : string) : option json :=
  if String.eqb text pool_answer then Some pool_json
  else if String.eqb text mixed_answer then Some mixed_json
  else if String.eqb text shadow_answer then Some shadow_json
  else if String.eqb text list_answer then Some list_json
  else None.

Definition world : Env :=
  mkEnv string string_dec Demo.demo_joinpath Demo.basename (fun _ => ".sol")
        (fun p => p) demo_glob demo_is_file demo_read_text
        (nodup string_dec) demo_create demo_json_loads (fun _ => "?")
        "2025-01-02T00:00:00".

Definition selected : list string :=
  ["src/Pool.sol"; "src/Mixed.sol"; "src/Silent.sol"; "src/Shadow.sol";
   "src/a[1].sol"].

(** The run of [analyze_project] on [odd]. *)
Definition odd_run : AnalysisResult * list (string * string) :=
  Eval vm_compute in analyze_selected world "m" "odd" ["odd/List.sol"].

(** The arguments [--model gpt-4o --config file] where the file holds
    [{"model": "other", "api_key": "from-file"}]. *)
Definition args_with_file : Config.args :=
  Config.mkArgs "gpt-4o" None "high"
    (Some (JDict [("model", JStr "other"); ("api_key", JStr "from-file")])).

End Demo2.

(* ===================================================================== *)
(** ** Further predicates *)
(* ===================================================================== *)

(** A digit or a letter from [a] to [f]. *)
Definition hex_char (c : ascii) : bool :=
  let n := N_of_ascii c in
  ((48 <=? n) && (n <=? 57) || (97 <=? n) && (n <=? 102))%N.

Fixpoint str_forallb (p : ascii -> bool) (s : string) : bool :=
  match s with
  | EmptyString => true
  | String c rest => p c && str_forallb p rest
  end.

(** The token counts [analyze_file] reads from a completion. *)
Definition reported_tokens (c : completion) : Z * Z :=
  match usage_obj c with
  | Some u => (tokens_or_0 (prompt_tokens u), tokens_or_0 (completion_tokens u))
  | None => (0, 0)
  end.

(** The request [analyze_file] sends for a file. *)
Definition request_of (E : Env) (model_id : string) (file_path : path E)
    (content : string) : request :=
  mkRequest model_id (name E file_path) (suffix E file_path) content.

(** The pattern as it is used: without a leading [./]. *)
Definition pattern_of (pattern : string) : string :=
  if str_startswith pattern "./" then str_drop 2 pattern else pattern.

(** Where a selected file can come from, for one given pattern: the glob
    of the pattern under the source directory, or the pattern read as a
    path below it. *)
Definition found_by (E : Env) (source_dir : path E) (pattern : string)
    (f : path E) : Prop :=
  (exists matches,
     glob E source_dir (pattern_of pattern) = Ok matches /\ In f matches)
  \/ f = joinpath E source_dir (pattern_of pattern).

(** Where a selected file can come from, for a default pattern. *)
Definition globbed_by (E : Env) (source_dir : path E) (pattern : string)
    (f : path E) : Prop :=
  exists matches, glob E source_dir pattern = Ok matches /\ In f matches.

(** The token counts [analyze_file] returns for a sequence of calls, the
    first of which is the call number [n], added up. *)
Fixpoint tokens_of_calls (E : Env) (model_id : string) (n : nat)
    (calls : list (path E * string)) : Z * Z :=
  match calls with
  | [] => (0, 0)
  | (file_path, content) :: rest =>
      let '(_, input_tokens, output_tokens) :=
        analyze_file E model_id n file_path content in
      let (i, o) := tokens_of_calls E model_id (S n) rest in
      (input_tokens + i, output_tokens + o)
  end.

(** The findings [analyze_file] returns for a sequence of calls, one
    after the other. *)
Fixpoint findings_of_calls (E : Env) (model_id : string) (n : nat)
    (calls : list (path E * string)) : list Finding :=
  match calls with
  | [] => []
  | (file_path, content) :: rest =>
      fst (fst (analyze_file E model_id n file_path content))
      ++ findings_of_calls E model_id (S n) rest
  end.




(* ===================================================================== *)
(** ** The hash behind the identifiers *)
(* ===================================================================== *)

Example md5_empty : MD5.hexdigest "" = "d41d8cd98f00b204e9800998ecf8427e".
Proof. vm_compute. reflexivity. Qed.

Example md5_abc : MD5.hexdigest "abc" = "900150983cd24fb0d6963f7d28e17f72".
Proof. vm_compute. reflexivity. Qed.

(** Sixty-four bytes: the padding opens a second block. *)
Example md5_two_blocks :
  MD5.hexdigest
    "yyyyyyyyyyyyyyyyyyyyyyyyyyyyyyyyyyyyyyyyyyyyyyyyyyyyyyyyyyyyyyyy"
  = "b0c4864f4e28d2d76929c38d87db7ed5".
Proof. vm_compute. reflexivity. Qed.

Lemma str_take_length (n : nat) (s : string) :
  String.length (str_take n s) = Nat.min n (String.length s).
Proof.
  revert s. induction n as [|n IH]; intros [|c s]; simpl; auto.
Qed.

Lemma string_of_list_ascii_length (l : list ascii) :
  String.length (string_of_list_ascii l) = List.length l.
Proof. induction l as [|c l IH]; simpl; congruence. Qed.

Lemma digest_length (msg : list Z) : List.length (MD5.digest msg) = 16%nat.
Proof.
  unfold MD5.digest. cbv zeta.
  generalize (MD5.digest_regs msg) as r. intros r.
  rewrite !length_app. reflexivity.
Qed.

(** The hexadecimal digest always has 32 characters. *)
Lemma hexdigest_length (data : string) :
  String.length (MD5.hexdigest data) = 32%nat.
Proof.
  unfold MD5.hexdigest.
  rewrite string_of_list_ascii_length.
  rewrite (flat_map_constant_length (c := 2%nat)) by reflexivity.
  rewrite digest_length. reflexivity.
Qed.

Section FindingIdentity.

Variable E : Env.

Lemma content_id_length (file : string) (title : json) :
  String.length (content_id E file title) = 16%nat.
Proof.
  unfold content_id. cbv zeta.
  rewrite str_take_length, hexdigest_length. reflexivity.
Qed.

Lemma new_Finding_empty_id
    (t d vt s c l : json) (file m st : string) :
  new_Finding E t d vt s c l file "" m st
  = mkFinding t d vt s c l file (content_id E file t) m st.
Proof. reflexivity. Qed.

Lemma new_Finding_given_id
    (t d vt s c l : json) (file id0 m st : string) :
  id0 <> "" ->
  new_Finding E t d vt s c l file id0 m st
  = mkFinding t d vt s c l file id0 m st.
Proof.
  intros Hid. unfold new_Finding, post_init. simpl.
  destruct id0 as [|a rest]; [contradiction | reflexivity].
Qed.

(** C1, as amended: for every [Finding] built without an id argument (the
    empty default, as [analyze_file] always does), the id is the first 16
    hexadecimal digits of the MD5 of [file], a colon and [title]; it has
    length 16 and depends on no other field, so two such findings with the
    same file and title have the same id. *)
Theorem C1_id_is_hash_of_file_and_title
    (t d vt s c l : json) (file m st : string) :
  let f := new_Finding E t d vt s c l file "" m st in
  id f = str_take 16 (MD5.hexdigest (file ++ ":" ++ format_value E t)%string)
  /\ String.length (id f) = 16%nat
  /\ (forall (d' vt' s' c' l' : json) (m' st' : string),
        id (new_Finding E t d' vt' s' c' l' file "" m' st') = id f).
Proof.
  cbv zeta. rewrite new_Finding_empty_id.
  split; [reflexivity|]. split; [apply content_id_length|].
  intros. rewrite new_Finding_empty_id. reflexivity.
Qed.

(** C10: a non-empty id argument is kept as it is, the whole record being
    stored unchanged; the hash is computed and assigned when the argument is
    the empty string. *)
Theorem C10_explicit_id_preserved
    (t d vt s c l : json) (file id0 m st : string) :
  id0 <> "" ->
  new_Finding E t d vt s c l file id0 m st
  = mkFinding t d vt s c l file id0 m st
  /\ id (new_Finding E t d vt s c l file id0 m st) = id0
  /\ id (new_Finding E t d vt s c l file "" m st) = content_id E file t.
Proof.
  intros Hid. rewrite (new_Finding_given_id _ _ _ _ _ _ _ _ _ _ Hid).
  repeat split.
Qed.

End FindingIdentity.

(** Two findings with the same file and title and different ids: the second
    was given an id. *)
Lemma C1_explicit_id_differs :
  let a := new_Finding Demo.world (JStr "T") (JStr "") (JStr "other")
             (JStr "medium") (JFloat (Finite (1 # 2))) (JStr "unknown")
             "a.sol" "" "m" "proposed" in
  let b := new_Finding Demo.world (JStr "T") (JStr "") (JStr "other")
             (JStr "medium") (JFloat (Finite (1 # 2))) (JStr "unknown")
             "a.sol" "custom" "m" "proposed" in
  file a = file b /\ title a = title b
  /\ id a = "1c23786f087288a2" /\ id b = "custom" /\ id a <> id b.
Proof.
  cbv zeta. vm_compute. repeat split. discriminate.
Qed.

Lemma C10_witness :
  id (new_Finding Demo.world (JStr "T") (JStr "") (JStr "other")
        (JStr "medium") (JFloat (Finite (1 # 2))) (JStr "unknown")
        "a.sol" "custom" "m" "proposed") = "custom".
Proof.
  apply (C10_explicit_id_preserved Demo.world (JStr "T") (JStr "")
           (JStr "other") (JStr "medium") (JFloat (Finite (1 # 2)))
           (JStr "unknown") "a.sol" "custom" "m" "proposed").
  discriminate.
Defined.

(* ===================================================================== *)
(** ** Deduplication *)
(* ===================================================================== *)

Lemma dict_get_app {V : Type} (u v : list (string * V)) (k : string) :
  dict_get (u ++ v) k
  = match dict_get u k with
    | Some x => Some x
    | None => dict_get v k
    end.
Proof.
  induction u as [|[k' x] u IH]; simpl; [reflexivity|].
  destruct (String.eqb k' k); auto.
Qed.

Lemma dict_get_none {V : Type} (u : list (string * V)) (k : string) :
  dict_get u k = None <-> ~ In k (map fst u).
Proof.
  induction u as [|[k' x] u IH]; simpl.
  - split; auto.
  - destruct (String.eqb_spec k' k) as [Heq|Hne].
    + split; [discriminate | intros H; exfalso; apply H; auto].
    + rewrite IH. split; [intros H [H1|H1]; auto | auto].
Qed.


Lemma dict_get_dedup_step (u : list (string * Finding)) (f : Finding)
    (i : string) :
  dict_get (dedup_step u f) i
  = match dict_get u i with
    | Some x => Some x
    | None => if String.eqb (id f) i then Some f else None
    end.
Proof.
  unfold dedup_step, dict_contains.
  destruct (dict_get u (id f)) as [x|] eqn:Hf.
  - destruct (dict_get u i) as [y|] eqn:Hi; [reflexivity|].
    destruct (String.eqb_spec (id f) i) as [Heq|Hne]; [|reflexivity].
    congruence.
  - rewrite dict_get_app. simpl. reflexivity.
Qed.

(** The mapping after the fold: an id already present keeps its finding,
    any other id gets the first finding of the sequence that carries it. *)
Lemma dict_get_fold (l : list Finding) (u : list (string * Finding))
    (i : string) :
  dict_get (fold_left dedup_step l u) i
  = match dict_get u i with
    | Some x => Some x
    | None => first_with_id i l
    end.
Proof.
  revert u. induction l as [|f l IH]; intros u; simpl.
  - destruct (dict_get u i); reflexivity.
  - rewrite IH, dict_get_dedup_step.
    destruct (dict_get u i); [reflexivity|].
    unfold first_with_id. simpl.
    destruct (String.eqb (id f) i); reflexivity.
Qed.

Lemma dedup_step_keyed (u : list (string * Finding)) (f : Finding) :
  keyed_by_id u -> keyed_by_id (dedup_step u f).
Proof.
  intros H. unfold dedup_step.
  destruct (dict_contains u (id f)); [assumption|].
  apply Forall_app. split; [assumption|].
  constructor; [reflexivity | constructor].
Qed.

Lemma dedup_step_nodup (u : list (string * Finding)) (f : Finding) :
  NoDup (map fst u) -> NoDup (map fst (dedup_step u f)).
Proof.
  intros H. unfold dedup_step, dict_contains.
  destruct (dict_get u (id f)) as [x|] eqn:Hf; [assumption|].
  rewrite map_app. simpl.
  apply NoDup_app; [assumption | repeat constructor; auto |].
  intros a Ha [Hb|[]]. subst a.
  apply dict_get_none in Hf. contradiction.
Qed.

Lemma fold_dedup_invariant (l : list Finding) (u : list (string * Finding)) :
  keyed_by_id u -> NoDup (map fst u) ->
  keyed_by_id (fold_left dedup_step l u)
  /\ NoDup (map fst (fold_left dedup_step l u)).
Proof.
  revert u. induction l as [|f l IH]; intros u Hk Hn; simpl.
  - split; assumption.
  - apply IH; [apply dedup_step_keyed | apply dedup_step_nodup]; assumption.
Qed.

Lemma keyed_ids (u : list (string * Finding)) :
  keyed_by_id u -> map id (dict_values u) = map fst u.
Proof.
  unfold dict_values. induction 1 as [|[k f] u Hkf _ IH]; simpl.
  - reflexivity.
  - simpl in Hkf. rewrite Hkf, IH. reflexivity.
Qed.

Lemma deduplicate_ids_distinct (l : list Finding) :
  NoDup (map id (dict_values (deduplicate l))).
Proof.
  destruct (fold_dedup_invariant l []) as [Hk Hn];
    [constructor | constructor |].
  unfold deduplicate. rewrite keyed_ids; assumption.
Qed.




(** Two entries of one answer with the same title: one finding stays, the
    first. *)
Example dedup_same_file_same_title :
  let a := new_Finding Demo.world (JStr "Reentrancy") (JStr "first")
             (JStr "other") (JStr "high") (JFloat (Finite (1 # 2)))
             (JStr "unknown") "a.sol" "" "m" "proposed" in
  let b := new_Finding Demo.world (JStr "Reentrancy") (JStr "second")
             (JStr "other") (JStr "low") (JFloat (Finite (1 # 2)))
             (JStr "unknown") "a.sol" "" "m" "proposed" in
  dict_values (deduplicate [a; b]) = [a].
Proof. vm_compute. reflexivity. Qed.

(** The same title in two files: both findings stay. *)
Example dedup_two_files_same_title :
  let a := new_Finding Demo.world (JStr "Reentrancy") (JStr "")
             (JStr "other") (JStr "high") (JFloat (Finite (1 # 2)))
             (JStr "unknown") "a.sol" "" "m" "proposed" in
  let b := new_Finding Demo.world (JStr "Reentrancy") (JStr "")
             (JStr "other") (JStr "high") (JFloat (Finite (1 # 2)))
             (JStr "unknown") "b.sol" "" "m" "proposed" in
  dict_values (deduplicate [a; b]) = [a; b].
Proof. vm_compute. reflexivity. Qed.

(* ===================================================================== *)
(** ** The loop over the files *)
(* ===================================================================== *)

Section ProjectLoop.

Variable E : Env.
Variable model_id : string.




(** What one turn of the loop does to the counters and to the record of
    calls, by whether the file is passed to [analyze_file]. *)
Lemma process_file_counts (st : Loop.state (path E)) (file_path : path E) :
  let st' := process_file E model_id st file_path in
  Loop.files_analyzed st'
  = (Loop.files_analyzed st
     + (if submitted E file_path then 1 else 0))%nat
  /\ Loop.files_skipped st'
     = (Loop.files_skipped st
        + (if submitted E file_path then 0 else 1))%nat
  /\ map fst (Loop.analyzer_calls st')
     = map fst (Loop.analyzer_calls st)
       ++ (if submitted E file_path then [file_path] else []).
Proof.
  cbv zeta. unfold process_file, submitted.
  destruct (read_text E file_path) as [content|].
  - destruct (blank content); simpl.
    + rewrite app_nil_r. repeat split; lia.
    + destruct (analyze_file E model_id _ file_path content)
        as [[fs it] ot].
      simpl. rewrite map_app. simpl. repeat split; lia.
  - simpl. rewrite app_nil_r. repeat split; lia.
Qed.

Lemma fold_process_counts (files : list (path E)) (st : Loop.state (path E)) :
  let st' := fold_left (process_file E model_id) files st in
  Loop.files_analyzed st'
  = (Loop.files_analyzed st
     + List.length (filter (submitted E) files))%nat
  /\ Loop.files_skipped st'
     = (Loop.files_skipped st
        + List.length (filter (fun f => negb (submitted E f)) files))%nat
  /\ map fst (Loop.analyzer_calls st')
     = map fst (Loop.analyzer_calls st) ++ filter (submitted E) files.
Proof.
  cbv zeta. revert st. induction files as [|f files IH]; intros st; simpl.
  - rewrite app_nil_r. repeat split; lia.
  - destruct (IH (process_file E model_id st f)) as (Ha & Hs & Hc).
    destruct (process_file_counts st f) as (Ha1 & Hs1 & Hc1).
    rewrite Ha, Hs, Hc, Ha1, Hs1, Hc1.
    destruct (submitted E f); simpl;
      rewrite <- ?app_assoc, ?app_nil_r; simpl; repeat split; lia.
Qed.

Lemma analyze_selected_counts (project_name : string)
    (files : list (path E)) :
  let r := fst (analyze_selected E model_id project_name files) in
  let calls := snd (analyze_selected E model_id project_name files) in
  files_analyzed r = List.length (filter (submitted E) files)
  /\ files_skipped r
     = List.length (filter (fun f => negb (submitted E f)) files)
  /\ map fst calls = filter (submitted E) files.
Proof.
  cbv zeta. destruct files as [|f files]; [simpl; auto|].
  unfold analyze_selected, analyze_files.
  destruct (fold_process_counts (f :: files) (initial_state E))
    as (Ha & Hs & Hc).
  cbv zeta in Ha, Hs, Hc.
  cbn [fst snd files_analyzed files_skipped].
  rewrite Ha, Hs, Hc. simpl. auto.
Qed.

Lemma analyze_selected_invariant (project_name : string)
    (files : list (path E)) :
  let r := fst (analyze_selected E model_id project_name files) in
  total_findings r = List.length (findings r)
  /\ NoDup (map id (findings r)).
Proof.
  cbv zeta. destruct files as [|f files]; simpl.
  - split; [reflexivity | constructor].
  - split.
    + unfold dict_values. rewrite length_map. reflexivity.
    + apply deduplicate_ids_distinct.
Qed.

(** C2: whenever [analyze_project] returns a result, [total_findings] is
    the length of [findings] and the ids of [findings] are pairwise
    distinct. *)
Theorem C2_result_invariant (project_name : string) (source_dir : path E)
    (file_patterns : option (list string))
    (r : AnalysisResult) (calls : list (path E * string)) :
  analyze_project E model_id project_name source_dir file_patterns
  = Ok (r, calls) ->
  total_findings r = List.length (findings r)
  /\ NoDup (map id (findings r)).
Proof.
  unfold analyze_project. intros H.
  destruct (select_files E source_dir file_patterns) as [files|];
    simpl in H; [|discriminate].
  injection H as H.
  pose proof (analyze_selected_invariant project_name files) as Hinv.
  cbv zeta in Hinv. rewrite H in Hinv. exact Hinv.
Qed.

End ProjectLoop.

Lemma C2_witness :
  analyze_project Demo.world "gpt-5-mini" "demo" "proj" None = Ok Demo.run
  /\ total_findings (fst Demo.run) = 3%nat
  /\ total_findings (fst Demo.run) = List.length (findings (fst Demo.run))
  /\ NoDup (map id (findings (fst Demo.run))).
Proof.
  assert (H : analyze_project Demo.world "gpt-5-mini" "demo" "proj" None
              = Ok (fst Demo.run, snd Demo.run))
    by (vm_compute; reflexivity).
  split; [vm_compute; reflexivity|].
  split; [reflexivity|].
  exact (C2_result_invariant Demo.world "gpt-5-mini" "demo" "proj" None
           (fst Demo.run) (snd Demo.run) H).
Defined.





(** White space of the ASCII range makes a content blank. *)
Lemma blank_ascii_spaces (content : string) :
  Forall (fun c => space1 (N_of_ascii c) = true)
         (list_ascii_of_string content) ->
  blank content = true.
Proof.
  induction content as [|c content IH]; simpl; intros H; [reflexivity|].
  inversion H as [|? ? Hc Hrest]; subst.
  rewrite Hc. auto.
Qed.

(** C8: a file read as blank content adds one to [files_skipped] and
    leaves everything else as it was: no call of [analyze_file], no
    finding, no change of [files_analyzed] or of the token counters; the
    loop goes on with the files that follow, and over the whole loop the
    file is never passed to [analyze_file]. *)
Theorem C8_blank_file_skipped (E : Env) (model_id : string)
    (st : Loop.state (path E)) (file_path : path E) (content : string) :
  read_text E file_path = Some content ->
  blank content = true ->
  process_file E model_id st file_path
  = Loop.mkState (Loop.all_findings st) (Loop.files_analyzed st)
                 (S (Loop.files_skipped st)) (Loop.total_input_tokens st)
                 (Loop.total_output_tokens st) (Loop.analyzer_calls st)
  /\ (forall before after,
        analyze_files E model_id (before ++ file_path :: after)
        = fold_left (process_file E model_id) after
            (process_file E model_id (analyze_files E model_id before)
                          file_path))
  /\ (forall files,
        ~ In file_path
             (map fst (Loop.analyzer_calls
                         (analyze_files E model_id files)))).
Proof.
  intros Hr Hb. split.
  { unfold process_file. rewrite Hr, Hb. reflexivity. }
  split.
  { intros before after. unfold analyze_files.
    rewrite fold_left_app. reflexivity. }
  intros files Hin.
  destruct (fold_process_counts E model_id files (initial_state E))
    as (_ & _ & Hc).
  unfold analyze_files in Hin. rewrite Hc in Hin. simpl in Hin.
  apply filter_In in Hin. destruct Hin as [_ Hs].
  unfold submitted in Hs. rewrite Hr, Hb in Hs. discriminate.
Qed.

Lemma C8_witness :
  process_file Demo.world "gpt-5-mini" (initial_state Demo.world)
               "proj/Empty.sol"
  = Loop.mkState [] 0%nat 1%nat 0 0 [].
Proof.
  apply (C8_blank_file_skipped Demo.world "gpt-5-mini"
           (initial_state Demo.world) "proj/Empty.sol" "   ");
    reflexivity.
Defined.

(* ===================================================================== *)
(** ** From the answer of the model to findings *)
(* ===================================================================== *)

Section Normalizer.

Variable E : Env.
Variable model_id : string.
Variable file_path : path E.

Lemma py_get_dict (d : list (string * json)) (key : string)
    (default : json) :
  py_get (JDict d) key default = Ok (get_or d key default).
Proof. unfold py_get, get_or. destruct (dict_get d key); reflexivity. Qed.

Lemma finding_of_JDict (d : list (string * json)) :
  finding_of E model_id file_path (JDict d)
  = Ok (finding_of_dict E model_id file_path d).
Proof. unfold finding_of. rewrite !py_get_dict. reflexivity. Qed.

(** A candidate that is not a dict has no [get]: the loop raises. *)
Lemma finding_of_not_dict (v : json) :
  (forall d, v <> JDict d) ->
  finding_of E model_id file_path v = Raise.
Proof.
  intros H. destruct v; try reflexivity. exfalso. exact (H d eq_refl).
Qed.

Lemma for_each_finding_of (items : list json) (fs : list Finding) :
  for_each (finding_of E model_id file_path) items = Ok fs ->
  exists ds,
    items = map JDict ds
    /\ fs = map (finding_of_dict E model_id file_path) ds.
Proof.
  revert fs. induction items as [|v items IH]; intros fs H; simpl in H.
  - injection H as <-. exists []. split; reflexivity.
  - destruct v as [| b | z | x | s | l | d]; try discriminate H.
    rewrite finding_of_JDict in H. simpl in H.
    destruct (for_each (finding_of E model_id file_path) items)
      as [fs'|] eqn:Hrest; simpl in H; [|discriminate].
    injection H as <-.
    destruct (IH fs' eq_refl) as (ds & Hi & Hf).
    exists (d :: ds). simpl. rewrite Hi, Hf. split; reflexivity.
Qed.

(** When [normalize] returns, the candidates were dicts and each finding
    comes from one of them, in order. *)
Lemma normalize_ok (result : json) (fs : list Finding) :
  normalize E model_id file_path result = Ok fs ->
  exists ds,
    py_iter (findings_data_of result) = Ok (map JDict ds)
    /\ fs = map (finding_of_dict E model_id file_path) ds.
Proof.
  unfold normalize. intros H.
  destruct (py_iter (findings_data_of result)) as [items|];
    simpl in H; [|discriminate].
  destruct (for_each_finding_of items fs H) as (ds & Hi & Hf).
  exists ds. rewrite Hi. split; [reflexivity | exact Hf].
Qed.





End Normalizer.




(* ===================================================================== *)
(** ** The selection of the files *)
(* ===================================================================== *)

Lemma select_files_filtered (E : Env) (source_dir : path E)
    (file_patterns : option (list string)) (files : list (path E)) :
  select_files E source_dir file_patterns = Ok files ->
  exists found, files = filter (keep_file E) (set_to_list E found).
Proof.
  unfold select_files. intros H.
  match type of H with
  | bind ?c _ = _ => destruct c as [found|]
  end; simpl in H; [|discriminate].
  injection H as <-. exists found. reflexivity.
Qed.

(** C9, as amended: the selected files are pairwise distinct as paths
    (two paths are one entry when they are equal, whatever they resolve
    to), each is a regular file, and none has a name that contains
    [test] once lowered. *)
Theorem C9_selection_distinct_regular_no_test (E : Env)
    (source_dir : path E) (file_patterns : option (list string))
    (files : list (path E)) :
  set_semantics E ->
  select_files E source_dir file_patterns = Ok files ->
  NoDup files
  /\ (forall f, In f files ->
        is_file E f = true
        /\ str_contains "test" (str_lower (name E f)) = false).
Proof.
  intros Hset Hsel.
  destruct (select_files_filtered E source_dir file_patterns files Hsel)
    as (found & ->).
  split.
  - apply NoDup_filter, Hset.
  - intros f Hin. apply filter_In in Hin. destruct Hin as [_ Hk].
    unfold keep_file in Hk. apply andb_true_iff in Hk.
    destruct Hk as [Hf Ht]. apply negb_true_iff in Ht. auto.
Qed.

Lemma demo_set_semantics : set_semantics Demo.world.
Proof.
  intros files. split; [apply NoDup_nodup | intros f; apply nodup_In].
Qed.

Lemma C9_witness :
  select_files Demo.world "proj" None = Ok Demo.selected
  /\ NoDup Demo.selected
  /\ ~ In "proj/VaultTest.sol" Demo.selected.
Proof.
  assert (Hsel : select_files Demo.world "proj" None = Ok Demo.selected)
    by (vm_compute; reflexivity).
  destruct (C9_selection_distinct_regular_no_test Demo.world "proj" None
              Demo.selected demo_set_semantics Hsel) as [Hn Hall].
  split; [exact Hsel|]. split; [exact Hn|].
  intros Hin. destruct (Hall _ Hin) as [_ Ht]. discriminate Ht.
Defined.

(** A symbolic link and its target are both selected: two entries that
    resolve to one file. *)
Lemma C9_link_and_target_both_selected :
  select_files Demo.world "proj" None = Ok Demo.selected
  /\ In "proj/Vault.sol" Demo.selected
  /\ In "proj/Link.sol" Demo.selected
  /\ "proj/Link.sol" <> "proj/Vault.sol"
  /\ resolve Demo.world "proj/Link.sol" = resolve Demo.world "proj/Vault.sol"
  /\ ~ NoDup (map (resolve Demo.world) Demo.selected).
Proof.
  split; [vm_compute; reflexivity|].
  split; [simpl; auto|]. split; [simpl; auto|].
  split; [discriminate|]. split; [reflexivity|].
  intros H. vm_compute in H. inversion H as [|x l Hnotin _]. subst.
  apply Hnotin. simpl. auto.
Qed.

(* ===================================================================== *)
(** ** The string helpers on a few inputs *)
(* ===================================================================== *)

Example blank_empty : blank "" = true.
Proof. reflexivity. Qed.

(** A tab, a no-break space (U+00A0) and a line separator (U+2028). *)
Example blank_unicode_spaces :
  blank (String (ascii_of_nat 9)
          (String (ascii_of_nat 194) (String (ascii_of_nat 160)
            (String (ascii_of_nat 226) (String (ascii_of_nat 128)
              (String (ascii_of_nat 168) EmptyString)))))) = true.
Proof. reflexivity. Qed.

Example blank_code : blank "  pragma solidity  " = false.
Proof. reflexivity. Qed.

Example test_name_dropped :
  keep_file Demo.world "proj/VaultTest.sol" = false
  /\ keep_file Demo.world "proj/Vault.sol" = true.
Proof. split; reflexivity. Qed.

(** A candidate that is not a dict makes the whole file fruitless. *)
Example string_candidate_absorbed :
  normalize Demo.world "m" "proj/Vault.sol"
            (JDict [("findings", JList [JStr "reentrancy"])]) = Raise
  /\ normalize Demo.world "m" "proj/Vault.sol" (JDict []) = Ok [].
Proof. split; reflexivity. Qed.

(* ===================================================================== *)
(** ** More on identifiers *)
(* ===================================================================== *)

Lemma hex_digit_is_hex (n : Z) : hex_char (MD5.hex_digit n) = true.
Proof.
  unfold MD5.hex_digit. generalize (Z.to_nat n) as k. intros k.
  do 16 (destruct k as [|k]; [reflexivity|]). reflexivity.
Qed.

Lemma str_forallb_of_list (p : ascii -> bool) (l : list ascii) :
  str_forallb p (string_of_list_ascii l) = forallb p l.
Proof. induction l as [|c l IH]; simpl; congruence. Qed.

Lemma str_forallb_take (p : ascii -> bool) (n : nat) (s : string) :
  str_forallb p s = true -> str_forallb p (str_take n s) = true.
Proof.
  revert s. induction n as [|n IH]; intros [|c s]; simpl; auto.
  intros H. apply andb_true_iff in H. destruct H as [Hc Hs].
  rewrite Hc. simpl. auto.
Qed.

Lemma hexdigest_is_hex (data : string) :
  str_forallb hex_char (MD5.hexdigest data) = true.
Proof.
  unfold MD5.hexdigest. rewrite str_forallb_of_list.
  induction (MD5.digest (MD5.bytes_of_string data)) as [|b l IH]; simpl.
  - reflexivity.
  - rewrite !hex_digit_is_hex. exact IH.
Qed.

Lemma str_app_assoc (a b c : string) :
  ((a ++ b) ++ c)%string = (a ++ (b ++ c))%string.
Proof. induction a as [|x a IH]; simpl; congruence. Qed.

Lemma dedup_pair_same_id (f1 f2 : Finding) :
  id f1 = id f2 -> dict_values (deduplicate [f1; f2]) = [f1].
Proof.
  intros H. unfold deduplicate. simpl.
  unfold dedup_step at 2. simpl.
  unfold dedup_step, dict_contains. simpl.
  rewrite <- H, String.eqb_refl. reflexivity.
Qed.

(** X1: a generated id consists of sixteen characters among [0-9] and
    [a-f], whatever the file name and the title. *)
Theorem X1_generated_id_is_lowercase_hex (E : Env)
    (t d vt s c l : json) (file m st : string) :
  let f := new_Finding E t d vt s c l file "" m st in
  str_forallb hex_char (id f) = true /\ String.length (id f) = 16%nat.
Proof.
  cbv zeta. rewrite new_Finding_empty_id. simpl id. split.
  - unfold content_id. cbv zeta. apply str_forallb_take, hexdigest_is_hex.
  - apply content_id_length.
Qed.

(** X2: the id hashes the file name, a colon and the title as one text, so
    a file name that holds a colon collides with a shorter file name and a
    longer title: file [a:b] with title [c] and file [a] with title [b:c]
    get the same id, and deduplication keeps only the first of the two. *)
Theorem X2_colon_shift_collides (E : Env) (a b c : string)
    (d1 vt1 s1 c1 l1 d2 vt2 s2 c2 l2 : json) (m st : string) :
  let f1 := new_Finding E (JStr c) d1 vt1 s1 c1 l1 (a ++ ":" ++ b)%string
                        "" m st in
  let f2 := new_Finding E (JStr (b ++ ":" ++ c)%string) d2 vt2 s2 c2 l2 a
                        "" m st in
  id f1 = id f2 /\ dict_values (deduplicate [f1; f2]) = [f1].
Proof.
  cbv zeta.
  assert (H : id (new_Finding E (JStr c) d1 vt1 s1 c1 l1
                              (a ++ ":" ++ b)%string "" m st)
              = id (new_Finding E (JStr (b ++ ":" ++ c)%string) d2 vt2 s2
                                c2 l2 a "" m st)).
  { rewrite !new_Finding_empty_id. simpl id. unfold content_id. cbv zeta.
    simpl format_value. rewrite str_app_assoc. reflexivity. }
  split; [exact H | apply dedup_pair_same_id, H].
Qed.

(** X3: two files of the same name, in different directories, that report
    the same title get the same id: only the finding of the first stays
    after deduplication. *)
Theorem X3_same_name_same_title_merge (E : Env) (model_id : string)
    (p1 p2 : path E) (d1 d2 : list (string * json)) :
  name E p1 = name E p2 ->
  get_or d1 "title" (JStr "Unknown") = get_or d2 "title" (JStr "Unknown") ->
  let f1 := finding_of_dict E model_id p1 d1 in
  let f2 := finding_of_dict E model_id p2 d2 in
  id f1 = id f2 /\ dict_values (deduplicate [f1; f2]) = [f1].
Proof.
  intros Hn Ht. cbv zeta.
  assert (H : id (finding_of_dict E model_id p1 d1)
              = id (finding_of_dict E model_id p2 d2)).
  { unfold finding_of_dict. rewrite !new_Finding_empty_id. simpl id.
    rewrite Hn, Ht. reflexivity. }
  split; [exact H | apply dedup_pair_same_id, H].
Qed.

Lemma X3_witness :
  let f1 := finding_of_dict Demo.world "m" "proj/Vault.sol"
              [("title", JStr "Reentrancy"); ("severity", JStr "high")] in
  let f2 := finding_of_dict Demo.world "m" "proj/legacy/Vault.sol"
              [("title", JStr "Reentrancy"); ("severity", JStr "low")] in
  id f1 = id f2 /\ dict_values (deduplicate [f1; f2]) = [f1].
Proof.
  apply (X3_same_name_same_title_merge Demo.world "m" "proj/Vault.sol"
           "proj/legacy/Vault.sol"); reflexivity.
Defined.

(* ===================================================================== *)
(** ** More on [analyze_file] *)
(* ===================================================================== *)

Section AnalyzeFile.

Variable E : Env.
Variable model_id : string.

Lemma for_each_dicts (file_path : path E) (ds : list (list (string * json))) :
  for_each (finding_of E model_id file_path) (map JDict ds)
  = Ok (map (finding_of_dict E model_id file_path) ds).
Proof.
  induction ds as [|d ds IH]; simpl; [reflexivity|].
  rewrite IH.
  change (finding_of E model_id file_path (JDict d))
    with (finding_of E model_id file_path (JDict d)).
  rewrite finding_of_JDict. reflexivity.
Qed.

Lemma for_each_raises {A B : Type} (body : A -> exn B) (l : list A)
    (a : A) :
  In a l -> body a = Raise -> for_each body l = Raise.
Proof.
  intros Hin Hr. induction l as [|x l IH]; simpl; [contradiction|].
  destruct Hin as [-> | Hin].
  - rewrite Hr. reflexivity.
  - rewrite (IH Hin). destruct (body x); reflexivity.
Qed.

(** What the [try] block does once the service has answered with a text
    that parses. *)
Lemma analyze_file_try_parsed (n : nat) (file_path : path E)
    (content : string) (c : completion) (text : string) (result : json) :
  chat_completions_create E n (request_of E model_id file_path content)
  = CallReturns c ->
  message_content c = Some text -> text <> "" ->
  json_loads E text = Some result ->
  analyze_file_try E model_id n file_path content
  = (findings <- normalize E model_id file_path result ;;
     Ok (findings, fst (reported_tokens c), snd (reported_tokens c))).
Proof.
  intros Hc Hm Ht Hj. unfold analyze_file_try, request_of in *.
  rewrite Hc, Hm. unfold reported_tokens.
  destruct text as [|ch rest]; [contradiction|]. rewrite Hj.
  destruct (usage_obj c); reflexivity.
Qed.

Lemma analyze_file_of_dicts (n : nat) (file_path : path E)
    (content : string) (c : completion) (text : string) (result : json)
    (ds : list (list (string * json))) :
  chat_completions_create E n (request_of E model_id file_path content)
  = CallReturns c ->
  message_content c = Some text -> text <> "" ->
  json_loads E text = Some result ->
  py_iter (findings_data_of result) = Ok (map JDict ds) ->
  analyze_file E model_id n file_path content
  = (map (finding_of_dict E model_id file_path) ds,
     fst (reported_tokens c), snd (reported_tokens c)).
Proof.
  intros Hc Hm Ht Hj Hi. unfold analyze_file.
  rewrite (analyze_file_try_parsed n file_path content c text result
             Hc Hm Ht Hj).
  unfold normalize. rewrite Hi. cbn [bind]. rewrite for_each_dicts.
  reflexivity.
Qed.


(** X5: one candidate that is not a dict loses the whole answer: no
    finding of the file is returned, not even those of the candidates
    before it, and the token counts the service reported are dropped. *)
Theorem X5_one_bad_candidate_loses_all (n : nat) (file_path : path E)
    (content : string) (c : completion) (text : string) (result : json)
    (items : list json) (v : json) :
  chat_completions_create E n (request_of E model_id file_path content)
  = CallReturns c ->
  message_content c = Some text -> text <> "" ->
  json_loads E text = Some result ->
  py_iter (findings_data_of result) = Ok items ->
  In v items -> (forall d, v <> JDict d) ->
  analyze_file E model_id n file_path content = ([], 0, 0).
Proof.
  intros Hc Hm Ht Hj Hi Hin Hv. unfold analyze_file.
  rewrite (analyze_file_try_parsed n file_path content c text result
             Hc Hm Ht Hj).
  unfold normalize. rewrite Hi. cbn [bind].
  rewrite (for_each_raises _ items v Hin
             (finding_of_not_dict E model_id file_path v Hv)).
  reflexivity.
Qed.

(** X6: an answer without text ([content] is [None] or empty, or
    [choices] is empty) is taken as [{}]: no finding, the parser is not
    consulted, and the reported token counts are returned. *)
Theorem X6_empty_answer_keeps_tokens (n : nat) (file_path : path E)
    (content : string) (c : completion) :
  chat_completions_create E n (request_of E model_id file_path content)
  = CallReturns c ->
  message_content c = None \/ message_content c = Some "" ->
  analyze_file E model_id n file_path content
  = ([], fst (reported_tokens c), snd (reported_tokens c)).
Proof.
  intros Hc Hm. unfold analyze_file, analyze_file_try, request_of in *.
  rewrite Hc. unfold reported_tokens.
  destruct Hm as [-> | ->]; destruct (usage_obj c); reflexivity.
Qed.

(** The findings [analyze_file] returns are built by [finding_of_dict]. *)
Lemma analyze_file_findings (n : nat) (file_path : path E)
    (content : string) (f : Finding) :
  In f (fst (fst (analyze_file E model_id n file_path content))) ->
  exists d, f = finding_of_dict E model_id file_path d.
Proof.
  unfold analyze_file, analyze_file_try.
  destruct (chat_completions_create E n _) as [|c]; [intros []|].
  destruct (usage_obj c) as [u|];
    destruct (message_content c) as [[|ch rest]|]; cbn [bind];
    try (destruct (json_loads E _) as [result|]; cbn [bind]);
    try (intros []);
    try (destruct (normalize E model_id file_path _) as [fs|] eqn:Hn;
         cbn [bind fst]; [|intros []];
         intros Hin;
         destruct (normalize_ok E model_id file_path _ fs Hn)
           as (ds & _ & ->);
         apply in_map_iff in Hin; destruct Hin as (d & <- & _);
         exists d; reflexivity).
Qed.

(** X7: every finding [analyze_file] returns names the analysed file by
    its last component, carries the model of the runner and the status
    [proposed], and has the 16-character id of its file name and title;
    nothing the answer says can change these four fields. *)
Theorem X7_fields_set_by_runner (n : nat) (file_path : path E)
    (content : string) (f : Finding) :
  In f (fst (fst (analyze_file E model_id n file_path content))) ->
  file f = name E file_path
  /\ reported_by_model f = model_id
  /\ status f = "proposed"
  /\ id f = content_id E (name E file_path) (title f)
  /\ String.length (id f) = 16%nat.
Proof.
  intros Hin.
  destruct (analyze_file_findings n file_path content f Hin) as (d & ->).
  unfold finding_of_dict. rewrite new_Finding_empty_id.
  cbn [file reported_by_model status id title].
  split; [reflexivity|]. split; [reflexivity|]. split; [reflexivity|].
  split; [reflexivity | apply content_id_length].
Qed.

(** X8: the key [findings] is taken whenever it is present, also when its
    value cannot be iterated ([null], a boolean, a number): the answer
    then gives no finding at all, whatever [vulnerabilities] holds. *)
Theorem X8_findings_key_shadows (file_path : path E)
    (d : list (string * json)) (v : json) :
  dict_get d "findings" = Some v ->
  py_iter v = Raise ->
  normalize E model_id file_path (JDict d) = Raise
  /\ (forall n content c text,
        chat_completions_create E n
          (request_of E model_id file_path content) = CallReturns c ->
        message_content c = Some text -> text <> "" ->
        json_loads E text = Some (JDict d) ->
        analyze_file E model_id n file_path content = ([], 0, 0)).
Proof.
  intros Hf Hv.
  assert (H : normalize E model_id file_path (JDict d) = Raise).
  { unfold normalize, findings_data_of. rewrite Hf, Hv. reflexivity. }
  split; [exact H|].
  intros n content c text Hc Hm Ht Hj. unfold analyze_file.
  rewrite (analyze_file_try_parsed n file_path content c text (JDict d)
             Hc Hm Ht Hj).
  rewrite H. reflexivity.
Qed.

End AnalyzeFile.

(* ===================================================================== *)
(** ** More on the selection of the files *)
(* ===================================================================== *)

Section Selection.

Variable E : Env.
Variable source_dir : path E.

Lemma path_in_true (x : path E) (files : list (path E)) :
  path_in E x files = true <-> In x files.
Proof.
  unfold path_in. destruct (in_dec (path_eq_dec E) x files); split; auto.
  discriminate.
Qed.

Lemma add_pattern_ok (files files' : list (path E)) (pattern : string) :
  add_pattern E source_dir files pattern = Ok files' ->
  exists matches,
    glob E source_dir (pattern_of pattern) = Ok matches
    /\ (forall f, In f files' <->
          In f files \/ In f matches
          \/ (f = joinpath E source_dir (pattern_of pattern)
              /\ is_file E f = true)).
Proof.
  unfold add_pattern. fold (pattern_of pattern).
  destruct (glob E source_dir (pattern_of pattern)) as [matches|];
    cbn [bind]; [|discriminate].
  intros H. injection H as <-. exists matches. split; [reflexivity|].
  intros f.
  destruct (is_file E (joinpath E source_dir (pattern_of pattern)))
    eqn:Hfile; cbn [andb].
  - destruct (path_in E (joinpath E source_dir (pattern_of pattern))
                      (files ++ matches)) eqn:Hin; cbn [negb].
    + apply path_in_true in Hin. rewrite in_app_iff. split.
      * intros [H|H]; auto.
      * intros [H|[H|[-> _]]]; auto. apply in_app_iff. exact Hin.
    + rewrite !in_app_iff. simpl. split.
      * intros [[H|H]|[<-|[]]]; auto.
      * intros [H|[H|[-> _]]]; auto.
  - rewrite in_app_iff. split.
    + intros [H|H]; auto.
    + intros [H|[H|[-> H]]]; auto. congruence.
Qed.

Lemma fold_add_pattern (patterns : list string)
    (files out : list (path E)) :
  fold_exn (add_pattern E source_dir) patterns files = Ok out ->
  forall f,
    In f out <->
    In f files
    \/ exists p, In p patterns /\ found_by E source_dir p f
                 /\ (f = joinpath E source_dir (pattern_of p) ->
                     In f out \/ is_file E f = true).
Proof.
  revert files. induction patterns as [|p ps IH]; intros files H f.
  - simpl in H. injection H as <-. split; [auto|].
    intros [Hf|(p & [] & _)]. exact Hf.
  - simpl in H.
    destruct (add_pattern E source_dir files p) as [files'|] eqn:Hstep;
      cbn [bind] in H; [|discriminate].
    destruct (add_pattern_ok files files' p Hstep) as (ms & Hg & Hiff).
    rewrite (IH files' H f). rewrite Hiff. split.
    + intros [[Hf|[Hm|[Hd Hfile]]]|(q & Hq & Hfound & Hex)].
      * left. exact Hf.
      * right. exists p. split; [left; reflexivity|].
        split; [left; exists ms; auto|].
        intros _. left. apply (IH files' H f). left. apply Hiff. auto.
      * right. exists p. split; [left; reflexivity|].
        split; [right; exact Hd | intros _; right; exact Hfile].
      * right. exists q. split; [right; exact Hq|]. split; assumption.
    + intros [Hf|(q & [<-|Hq] & Hfound & Hex)].
      * left. left. exact Hf.
      * destruct Hfound as [(ms' & Hg' & Hm)|Hd].
        -- rewrite Hg in Hg'. injection Hg' as <-. left. right. left.
           exact Hm.
        -- destruct (Hex Hd) as [Hout|Hfile].
           ++ apply (IH files' H f) in Hout. rewrite Hiff in Hout.
              exact Hout.
           ++ left. right. right. split; assumption.
      * right. exists q. split; [exact Hq|]. split; assumption.
Qed.

Lemma fold_add_default (patterns : list string)
    (files out : list (path E)) :
  fold_exn (add_default E source_dir) patterns files = Ok out ->
  forall f,
    In f out <->
    In f files \/ exists p, In p patterns /\ globbed_by E source_dir p f.
Proof.
  revert files. induction patterns as [|p ps IH]; intros files H f.
  - simpl in H. injection H as <-. split; [auto|].
    intros [Hf|(p & [] & _)]. exact Hf.
  - simpl in H. unfold add_default at 1 in H.
    destruct (glob E source_dir p) as [ms|] eqn:Hg; cbn [bind] in H;
      [|discriminate].
    rewrite (IH _ H f), in_app_iff. split.
    + intros [[Hf|Hm]|(q & Hq & Hfound)].
      * left. exact Hf.
      * right. exists p. split; [left; reflexivity | exists ms; auto].
      * right. exists q. split; [right; exact Hq | exact Hfound].
    + intros [Hf|(q & [<-|Hq] & Hfound)].
      * left. left. exact Hf.
      * destruct Hfound as (ms' & Hg' & Hm). rewrite Hg in Hg'.
        injection Hg' as <-. left. right. exact Hm.
      * right. exists q. split; assumption.
Qed.

Lemma keep_file_true (f : path E) :
  keep_file E f = true <->
  is_file E f = true /\ str_contains "test" (str_lower (name E f)) = false.
Proof.
  unfold keep_file. rewrite andb_true_iff, negb_true_iff. reflexivity.
Qed.

(** X9: with patterns given, a path is selected exactly when it is a
    regular file whose lowered name does not contain [test] and some
    pattern, stripped of a leading [./], either matches it as a glob or
    names it directly below the source directory.  So a file is found by
    its plain name even when the glob engine does not match that name,
    and nothing else is ever selected. *)
Theorem X9_selection_with_patterns (p0 : string) (rest : list string)
    (files : list (path E)) :
  set_semantics E ->
  select_files E source_dir (Some (p0 :: rest)) = Ok files ->
  forall f,
    In f files <->
    (is_file E f = true
     /\ str_contains "test" (str_lower (name E f)) = false
     /\ exists p, In p (p0 :: rest) /\ found_by E source_dir p f).
Proof.
  intros Hset Hsel f. unfold select_files in Hsel.
  destruct (fold_exn (add_pattern E source_dir) (p0 :: rest) [])
    as [found|] eqn:Hfold; cbn [bind] in Hsel; [|discriminate].
  injection Hsel as <-.
  rewrite filter_In, (proj2 (Hset found) f), keep_file_true.
  rewrite (fold_add_pattern (p0 :: rest) [] found Hfold f). split.
  - intros [[[]|(p & Hp & Hfound & _)] [Hfile Htest]].
    split; [exact Hfile|]. split; [exact Htest|]. exists p. auto.
  - intros (Hfile & Htest & p & Hp & Hfound).
    split; [|split; assumption].
    right. exists p. split; [exact Hp|]. split; [exact Hfound|].
    intros _. right. exact Hfile.
Qed.

(** X10: without patterns (none given, or an empty list), a path is
    selected exactly when it is a regular file whose lowered name does
    not contain [test] and one of the five default globs matches it. *)
Theorem X10_selection_by_default (file_patterns : option (list string))
    (files : list (path E)) :
  set_semantics E ->
  file_patterns = None \/ file_patterns = Some [] ->
  select_files E source_dir file_patterns = Ok files ->
  forall f,
    In f files <->
    (is_file E f = true
     /\ str_contains "test" (str_lower (name E f)) = false
     /\ exists p,
          In p ["**/*.sol"; "**/*.vy"; "**/*.cairo"; "**/*.rs"; "**/*.move"]
          /\ globbed_by E source_dir p f).
Proof.
  intros Hset Hnone Hsel f.
  assert (Hsel' : (files0 <- fold_exn (add_default E source_dir)
                               default_patterns [] ;;
                   Ok (filter (keep_file E) (set_to_list E files0)))
                  = Ok files).
  { destruct Hnone as [-> | ->]; exact Hsel. }
  clear Hsel.
  destruct (fold_exn (add_default E source_dir) default_patterns [])
    as [found|] eqn:Hfold; cbn [bind] in Hsel'; [|discriminate].
  injection Hsel' as <-.
  rewrite filter_In, (proj2 (Hset found) f), keep_file_true.
  rewrite (fold_add_default default_patterns [] found Hfold f).
  unfold default_patterns. split.
  - intros [[[]|Hex] [Hfile Htest]]. auto.
  - intros (Hfile & Htest & Hex). auto.
Qed.

Lemma fold_exn_raises {A B : Type} (body : A -> B -> exn A) (l : list B)
    (b : B) :
  In b l -> (forall a, body a b = Raise) ->
  forall a, fold_exn body l a = Raise.
Proof.
  intros Hin Hr. induction l as [|x l IH]; intros a; simpl;
    [contradiction|].
  destruct Hin as [-> | Hin].
  - rewrite Hr. reflexivity.
  - destruct (body a x); cbn [bind]; [apply IH, Hin | reflexivity].
Qed.

(** X11: a pattern the glob engine refuses ends the whole run: when
    [glob] raises for one of the given patterns, [analyze_project] raises
    and returns no result, whatever the other patterns match. *)
Theorem X11_refused_pattern_aborts (model_id project_name : string)
    (patterns : list string) (p : string) :
  In p patterns ->
  glob E source_dir (pattern_of p) = Raise ->
  select_files E source_dir (Some patterns) = Raise
  /\ analyze_project E model_id project_name source_dir (Some patterns)
     = Raise
  /\ analyze_project_and_report E model_id project_name source_dir
       (Some patterns) = Raise.
Proof.
  intros Hin Hg.
  assert (Hsel : select_files E source_dir (Some patterns) = Raise).
  { unfold select_files. destruct patterns as [|q qs]; [destruct Hin|].
    rewrite (fold_exn_raises (add_pattern E source_dir) (q :: qs) p Hin).
    - reflexivity.
    - intros a. unfold add_pattern. fold (pattern_of p). rewrite Hg.
      reflexivity. }
  split; [exact Hsel|].
  unfold analyze_project, analyze_project_and_report. rewrite Hsel.
  split; reflexivity.
Qed.

Lemma pattern_of_dot_slash (p : string) :
  str_startswith p "./" = false ->
  pattern_of ("./" ++ p) = pattern_of p.
Proof.
  intros H. unfold pattern_of. rewrite H.
  unfold str_startswith. simpl. destruct p; reflexivity.
Qed.

Lemma fold_exn_ext {A B C : Type} (body : A -> B -> exn A)
    (body' : A -> C -> exn A) (g : C -> B) (l : list C) :
  (forall a c, In c l -> body' a c = body a (g c)) ->
  forall a, fold_exn body' l a = fold_exn body (map g l) a.
Proof.
  induction l as [|c l IH]; intros H a; simpl; [reflexivity|].
  rewrite (H a c (or_introl eq_refl)).
  destruct (body a (g c)); cbn [bind]; [|reflexivity].
  apply IH. intros a' c' Hc. apply H. right. exact Hc.
Qed.

(** X12: a leading [./] on a pattern changes nothing: the patterns
    written with it select what the same patterns select without it. *)
Theorem X12_dot_slash_prefix_ignored (patterns : list string) :
  (forall p, In p patterns -> str_startswith p "./" = false) ->
  select_files E source_dir (Some (map (String.append "./") patterns))
  = select_files E source_dir (Some patterns).
Proof.
  intros H. destruct patterns as [|p ps]; [reflexivity|].
  unfold select_files. cbn [map].
  change (String.append "./" p :: map (String.append "./") ps)
    with (map (String.append "./") (p :: ps)).
  rewrite <- (fold_exn_ext (add_pattern E source_dir)
                (add_pattern E source_dir) (String.append "./") (p :: ps)).
  - reflexivity.
  - intros a c Hc. unfold add_pattern.
    fold (pattern_of c). fold (pattern_of ("./" ++ c)).
    rewrite (pattern_of_dot_slash c (H c Hc)). reflexivity.
Qed.

End Selection.

(* ===================================================================== *)
(** ** More on the loop and the result *)
(* ===================================================================== *)

Section RunAccounting.

Variable E : Env.
Variable model_id : string.

Lemma filter_partition_length {A : Type} (p : A -> bool) (l : list A) :
  (List.length (filter p l)
   + List.length (filter (fun x => negb (p x)) l))%nat = List.length l.
Proof.
  induction l as [|x l IH]; simpl; [reflexivity|].
  destruct (p x); simpl; lia.
Qed.

(** What the loop adds to a state: the calls it makes, and with them the
    findings and the token counts of these calls. *)
Lemma fold_process_trace (files : list (path E))
    (st : Loop.state (path E)) :
  let st' := fold_left (process_file E model_id) files st in
  exists new,
    Loop.analyzer_calls st' = Loop.analyzer_calls st ++ new
    /\ Loop.all_findings st'
       = Loop.all_findings st
         ++ findings_of_calls E model_id
              (List.length (Loop.analyzer_calls st)) new
    /\ Loop.total_input_tokens st'
       = Loop.total_input_tokens st
         + fst (tokens_of_calls E model_id
                  (List.length (Loop.analyzer_calls st)) new)
    /\ Loop.total_output_tokens st'
       = Loop.total_output_tokens st
         + snd (tokens_of_calls E model_id
                  (List.length (Loop.analyzer_calls st)) new)
    /\ (forall fp content, In (fp, content) new ->
          In fp files /\ read_text E fp = Some content
          /\ blank content = false).
Proof.
  cbv zeta. revert st. induction files as [|f files IH]; intros st.
  - exists []. simpl. rewrite !app_nil_r, !Z.add_0_r.
    repeat split; contradiction.
  - cbn [fold_left].
    destruct (IH (process_file E model_id st f))
      as (new & Hc & Hf & Hi & Ho & Hn).
    unfold process_file in Hc, Hf, Hi, Ho |- *.
    destruct (read_text E f) as [content|] eqn:Hr.
    + destruct (blank content) eqn:Hb.
      * exists new. cbn in Hc, Hf, Hi, Ho.
        split; [exact Hc|]. split; [exact Hf|]. split; [exact Hi|].
        split; [exact Ho|].
        intros fp c Hin. destruct (Hn fp c Hin) as (H1 & H2 & H3).
        split; [right; exact H1 | split; assumption].
      * destruct (analyze_file E model_id
                    (List.length (Loop.analyzer_calls st)) f content)
          as [[fs it] ot] eqn:Ha.
        cbn in Hc, Hf, Hi, Ho.
        rewrite length_app in Hf, Hi, Ho. cbn in Hf, Hi, Ho.
        rewrite Nat.add_1_r in Hf, Hi, Ho.
        exists ((f, content) :: new).
        cbn [findings_of_calls tokens_of_calls]. rewrite Ha.
        destruct (tokens_of_calls E model_id
                    (S (List.length (Loop.analyzer_calls st))) new)
          as [ri ro].
        cbn [fst snd] in *.
        rewrite <- app_assoc in Hc, Hf. cbn in Hc.
        split; [exact Hc|]. split; [exact Hf|].
        split; [rewrite Hi; lia|]. split; [rewrite Ho; lia|].
        intros fp c [Heq|Hin].
        -- injection Heq as <- <-. split; [left; reflexivity|].
           split; assumption.
        -- destruct (Hn fp c Hin) as (H1 & H2 & H3).
           split; [right; exact H1 | split; assumption].
    + exists new. cbn in Hc, Hf, Hi, Ho.
      split; [exact Hc|]. split; [exact Hf|]. split; [exact Hi|].
      split; [exact Ho|].
      intros fp c Hin. destruct (Hn fp c Hin) as (H1 & H2 & H3).
      split; [right; exact H1 | split; assumption].
Qed.

(** X13: every selected file is counted once: in a returned result
    [files_analyzed] and [files_skipped] add up to the number of selected
    files, and [files_analyzed] is the number of calls of
    [analyze_file]. *)
Theorem X13_every_file_counted_once (project_name : string)
    (source_dir : path E) (file_patterns : option (list string))
    (r : AnalysisResult) (calls : list (path E * string)) :
  analyze_project E model_id project_name source_dir file_patterns
  = Ok (r, calls) ->
  exists files,
    select_files E source_dir file_patterns = Ok files
    /\ (files_analyzed r + files_skipped r)%nat = List.length files
    /\ files_analyzed r = List.length calls.
Proof.
  intros H. unfold analyze_project in H.
  destruct (select_files E source_dir file_patterns) as [files|];
    cbn [bind] in H; [|discriminate].
  injection H as H. exists files. split; [reflexivity|].
  pose proof (analyze_selected_counts E model_id project_name files) as Hc.
  cbv zeta in Hc. rewrite H in Hc. cbn [fst snd] in Hc.
  destruct Hc as (Ha & Hs & Hm). rewrite Ha, Hs. split.
  - apply filter_partition_length.
  - rewrite <- Hm. apply length_map.
Qed.

Lemma analyze_selected_trace (project_name : string)
    (files : list (path E)) (r : AnalysisResult)
    (calls : list (path E * string)) :
  analyze_selected E model_id project_name files = (r, calls) ->
  findings r
  = dict_values (deduplicate (findings_of_calls E model_id 0 calls))
  /\ token_usage r
     = make_token_usage (fst (tokens_of_calls E model_id 0 calls))
                        (snd (tokens_of_calls E model_id 0 calls))
  /\ (forall fp content, In (fp, content) calls ->
        In fp files /\ read_text E fp = Some content
        /\ blank content = false).
Proof.
  destruct files as [|f files].
  - simpl. intros H. injection H as <- <-. simpl.
    repeat split; contradiction.
  - unfold analyze_selected, analyze_files.
    pose proof (fold_process_trace (f :: files) (initial_state E)) as Ht.
    cbv zeta in Ht.
    set (st := fold_left (process_file E model_id) (f :: files)
                         (initial_state E)) in *.
    destruct Ht as (new & Hc & Hf & Hi & Ho & Hn).
    cbn [initial_state Loop.analyzer_calls Loop.all_findings
         Loop.total_input_tokens Loop.total_output_tokens
         List.length app] in Hc, Hf, Hi, Ho.
    rewrite Z.add_0_l in Hi, Ho.
    intros H. injection H as <- <-. cbn [findings token_usage].
    rewrite Hc, Hf, Hi, Ho.
    split; [reflexivity|]. split; [reflexivity | exact Hn].
Qed.

(** X14: the token counts of a returned result are the sums, over the
    calls of [analyze_file] in their order, of the counts these calls
    returned (0 for a call that failed), and [total_tokens] is the sum of
    the other two. *)
Theorem X14_token_usage_is_the_sum (project_name : string)
    (source_dir : path E) (file_patterns : option (list string))
    (r : AnalysisResult) (calls : list (path E * string)) :
  analyze_project E model_id project_name source_dir file_patterns
  = Ok (r, calls) ->
  let (i, o) := tokens_of_calls E model_id 0 calls in
  dict_get (token_usage r) "input_tokens" = Some i
  /\ dict_get (token_usage r) "output_tokens" = Some o
  /\ dict_get (token_usage r) "total_tokens" = Some (i + o)
  /\ map fst (token_usage r)
     = ["input_tokens"; "output_tokens"; "total_tokens"].
Proof.
  intros H. unfold analyze_project in H.
  destruct (select_files E source_dir file_patterns) as [files|];
    cbn [bind] in H; [|discriminate].
  injection H as H.
  destruct (analyze_selected_trace project_name files r calls H)
    as (_ & Ht & _).
  rewrite Ht. destruct (tokens_of_calls E model_id 0 calls) as [i o].
  repeat split.
Qed.

Lemma in_findings_of_calls (calls : list (path E * string)) (n : nat)
    (f : Finding) :
  In f (findings_of_calls E model_id n calls) ->
  exists fp content d,
    In (fp, content) calls /\ f = finding_of_dict E model_id fp d.
Proof.
  revert n. induction calls as [|[fp content] calls IH]; intros n Hin.
  - destruct Hin.
  - cbn [findings_of_calls] in Hin. apply in_app_iff in Hin.
    destruct Hin as [Hin|Hin].
    + destruct (analyze_file_findings E model_id n fp content f Hin)
        as (d & ->).
      exists fp, content, d. split; [left; reflexivity | reflexivity].
    + destruct (IH (S n) Hin) as (fp' & c' & d & Hc & ->).
      exists fp', c', d. split; [right; exact Hc | reflexivity].
Qed.

Lemma dedup_step_incl (u : list (string * Finding)) (f g : Finding)
    (k : string) :
  In (k, g) (dedup_step u f) -> In (k, g) u \/ g = f.
Proof.
  unfold dedup_step. destruct (dict_contains u (id f)); [auto|].
  intros H. apply in_app_iff in H. destruct H as [H|[H|[]]]; [auto|].
  injection H as _ <-. auto.
Qed.

Lemma fold_dedup_incl (l : list Finding) (u : list (string * Finding))
    (g : Finding) (k : string) :
  In (k, g) (fold_left dedup_step l u) -> In (k, g) u \/ In g l.
Proof.
  revert u. induction l as [|f l IH]; intros u H; simpl in H; [auto|].
  destruct (IH _ H) as [H1|H1].
  - destruct (dedup_step_incl u f g k H1) as [H2| ->]; [auto|].
    right. left. reflexivity.
  - right. right. exact H1.
Qed.

Lemma dedup_step_length (u : list (string * Finding)) (f : Finding) :
  (List.length (dedup_step u f) <= S (List.length u))%nat.
Proof.
  unfold dedup_step. destruct (dict_contains u (id f)); [lia|].
  rewrite length_app. simpl. lia.
Qed.

Lemma fold_dedup_length (l : list Finding) (u : list (string * Finding)) :
  (List.length (fold_left dedup_step l u)
   <= List.length u + List.length l)%nat.
Proof.
  revert u. induction l as [|f l IH]; intros u; simpl; [lia|].
  pose proof (IH (dedup_step u f)). pose proof (dedup_step_length u f).
  lia.
Qed.

Lemma dict_get_in {V : Type} (d : list (string * V)) (k : string) (v : V) :
  dict_get d k = Some v -> In v (map snd d).
Proof.
  induction d as [|[k' x] d IH]; simpl; [discriminate|].
  destruct (String.eqb k' k).
  - intros H. injection H as ->. left. reflexivity.
  - intros H. right. apply IH, H.
Qed.

Lemma dedup_values_in (l : list Finding) (g : Finding) :
  In g (dict_values (deduplicate l)) -> In g l.
Proof.
  unfold dict_values, deduplicate. intros Hg.
  apply in_map_iff in Hg. destruct Hg as ([k g'] & <- & Hin).
  destruct (fold_dedup_incl l [] g' k Hin) as [[]|H]. exact H.
Qed.

(** X15: deduplication invents nothing and loses no id: every finding it
    returns is one of the findings it was given, every id it was given is
    still the id of a returned finding, and it never returns more
    findings than it was given. *)
Theorem X15_dedup_sound_and_complete (all_findings : list Finding) :
  let unique := dict_values (deduplicate all_findings) in
  (forall g, In g unique -> In g all_findings)
  /\ (forall f, In f all_findings ->
        exists g, In g unique /\ id g = id f)
  /\ (List.length unique <= List.length all_findings)%nat.
Proof.
  cbv zeta. split; [exact (dedup_values_in all_findings)|].
  unfold dict_values, deduplicate. split.
  - intros f Hf.
    pose proof (dict_get_fold all_findings [] (id f)) as Hget.
    cbn [dict_get] in Hget. unfold first_with_id in Hget.
    destruct (find (fun x => String.eqb (id x) (id f)) all_findings)
      as [g|] eqn:Hfind.
    + apply find_some in Hfind. destruct Hfind as [_ Heq].
      apply String.eqb_eq in Heq.
      exists g. split; [|exact Heq].
      exact (dict_get_in _ _ _ Hget).
    + exfalso. pose proof (find_none _ _ Hfind f Hf) as Hno.
      cbn in Hno. rewrite String.eqb_refl in Hno. discriminate.
  - rewrite length_map.
    pose proof (fold_dedup_length all_findings []). simpl in *. lia.
Qed.

(** X16: every finding of a returned result comes from a call of
    [analyze_file] on a selected file that was read with content that is
    not blank: it names that file, it carries the model of the runner,
    and it is built from a candidate dict by the defaults of the
    normalizer. *)
Theorem X16_result_findings_come_from_calls (project_name : string)
    (source_dir : path E) (file_patterns : option (list string))
    (r : AnalysisResult) (calls : list (path E * string)) (f : Finding) :
  analyze_project E model_id project_name source_dir file_patterns
  = Ok (r, calls) ->
  In f (findings r) ->
  exists files fp content d,
    select_files E source_dir file_patterns = Ok files
    /\ In fp files
    /\ In (fp, content) calls
    /\ read_text E fp = Some content
    /\ blank content = false
    /\ f = finding_of_dict E model_id fp d
    /\ file f = name E fp
    /\ reported_by_model f = model_id.
Proof.
  intros H Hin. unfold analyze_project in H.
  destruct (select_files E source_dir file_patterns) as [files|];
    cbn [bind] in H; [|discriminate].
  injection H as H.
  destruct (analyze_selected_trace project_name files r calls H)
    as (Hf & _ & Hn).
  rewrite Hf in Hin.
  apply dedup_values_in in Hin.
  destruct (in_findings_of_calls calls 0 f Hin)
    as (fp & content & d & Hc & ->).
  destruct (Hn fp content Hc) as (H1 & H2 & H3).
  exists files, fp, content, d.
  split; [reflexivity|]. split; [exact H1|]. split; [exact Hc|].
  split; [exact H2|]. split; [exact H3|]. split; [reflexivity|].
  split; reflexivity.
Qed.

End RunAccounting.

(* ===================================================================== *)
(** ** The summary *)
(* ===================================================================== *)










(* ===================================================================== *)
(** ** The saved result *)
(* ===================================================================== *)

Lemma result_dict_asdict (r : AnalysisResult) :
  result_dict r = result_asdict r.
Proof. reflexivity. Qed.

Lemma finding_asdict_inj (f g : Finding) :
  finding_asdict f = finding_asdict g -> f = g.
Proof.
  destruct f, g. unfold finding_asdict. simpl. intros H.
  injection H as -> -> -> -> -> -> -> -> -> ->. reflexivity.
Qed.

Lemma map_inj {A B : Type} (h : A -> B) (l l' : list A) :
  (forall a b, h a = h b -> a = b) -> map h l = map h l' -> l = l'.
Proof.
  intros Hinj. revert l'. induction l as [|a l IH]; intros [|b l'] H;
    simpl in H; try discriminate; [reflexivity|].
  injection H as Hab Hrest. f_equal; [apply Hinj, Hab | apply IH, Hrest].
Qed.

Lemma NoDup_map_inj {A B : Type} (h : A -> B) (l : list A) :
  (forall a b, h a = h b -> a = b) -> NoDup l -> NoDup (map h l).
Proof.
  intros Hinj Hnd. induction Hnd as [|a l Hnotin _ IH]; simpl.
  - constructor.
  - constructor; [|exact IH]. intros Hin. apply in_map_iff in Hin.
    destruct Hin as (b & Hb & Hbl). apply Hinj in Hb. subst b.
    contradiction.
Qed.

(** X20: the saved document loses nothing: two results with the same
    document are the same result, field by field and finding by
    finding. *)
Theorem X20_saved_document_determines_result (r1 r2 : AnalysisResult) :
  result_dict r1 = result_dict r2 -> r1 = r2.
Proof.
  rewrite !result_dict_asdict. destruct r1, r2. unfold result_asdict.
  simpl. intros H. injection H as -> -> Ha Hs Ht Hf Hu.
  apply Nat2Z.inj in Ha, Hs, Ht. subst.
  apply (map_inj _ _ _ finding_asdict_inj) in Hf. subst.
  apply map_inj in Hu.
  - subst. reflexivity.
  - intros [k v] [k' v']. simpl. intros H. injection H as -> ->.
    reflexivity.
Qed.

(** X21: in the document saved for a result of [analyze_project] the
    number under [total_findings] is the length of the array under
    [findings], no two objects of that array have the same [id], and the
    keys are the seven of the format, in its order. *)
Theorem X21_saved_document_of_a_run (E : Env)
    (model_id project_name : string) (source_dir : path E)
    (file_patterns : option (list string))
    (r : AnalysisResult) (calls : list (path E * string)) :
  analyze_project E model_id project_name source_dir file_patterns
  = Ok (r, calls) ->
  exists docs,
    dict_get (result_dict r) "findings" = Some (JList docs)
    /\ dict_get (result_dict r) "total_findings"
       = Some (JInt (Z.of_nat (List.length docs)))
    /\ NoDup (map (fun doc => match doc with
                              | JDict d => dict_get d "id"
                              | _ => None
                              end) docs)
    /\ map fst (result_dict r)
       = ["project"; "timestamp"; "files_analyzed"; "files_skipped";
          "total_findings"; "findings"; "token_usage"].
Proof.
  intros H. unfold analyze_project in H.
  destruct (select_files E source_dir file_patterns) as [files|];
    cbn [bind] in H; [|discriminate].
  injection H as H.
  pose proof (analyze_selected_invariant E model_id project_name files)
    as Hinv.
  cbv zeta in Hinv. rewrite H in Hinv. cbn [fst] in Hinv.
  destruct Hinv as [Hlen Hnd].
  exists (map finding_asdict (findings r)).
  split; [reflexivity|]. split.
  - cbn. rewrite length_map, Hlen. reflexivity.
  - split; [|reflexivity].
    rewrite map_map. cbn.
    assert (Hm : map (fun x => Some (JStr (id x))) (findings r)
                 = map (fun s => Some (JStr s)) (map id (findings r)))
      by (rewrite map_map; reflexivity).
    rewrite Hm. apply NoDup_map_inj; [|exact Hnd].
    intros a b Hab. injection Hab as ->. reflexivity.
Qed.

Section Disk.

Variable E : Env.





End Disk.




(* ===================================================================== *)
(** ** The configuration of the runner *)
(* ===================================================================== *)

Lemma dict_get_set_same {V : Type} (d : list (string * V)) (k : string)
    (v : V) :
  dict_get (dict_set d k v) k = Some v.
Proof.
  induction d as [|[k' v'] d IH]; simpl.
  - rewrite String.eqb_refl. reflexivity.
  - destruct (String.eqb k' k) eqn:Hk; simpl; rewrite Hk; auto.
Qed.

Lemma dict_get_set_other {V : Type} (d : list (string * V))
    (k k' : string) (v : V) :
  k <> k' -> dict_get (dict_set d k v) k' = dict_get d k'.
Proof.
  intros Hne. induction d as [|[k0 v0] d IH]; simpl.
  - apply String.eqb_neq in Hne. rewrite Hne. reflexivity.
  - destruct (String.eqb k0 k) eqn:Hk; simpl.
    + apply String.eqb_eq in Hk. subst k0.
      apply String.eqb_neq in Hne. rewrite Hne. reflexivity.
    + destruct (String.eqb k0 k'); [reflexivity | exact IH].
Qed.

(** The configuration [main] hands to the runner when the configuration
    file holds the dict [d] (or there is none and [d] is empty). *)
Lemma main_config_dict (a : Config.args) (d : list (string * json)) :
  Config.config_file a = Some (JDict d)
  \/ (Config.config_file a = None /\ d = []) ->
  exists d',
    Config.main_config a = Ok (JDict d')
    /\ dict_get d' "reasoning_effort"
       = Some (JStr (Config.reasoning_effort_arg a))
    /\ dict_get d' "model"
       = (if String.eqb (Config.model a) "" then dict_get d "model"
          else Some (JStr (Config.model a)))
    /\ dict_get d' "api_key"
       = match Config.api_key_arg a with
         | Some (String c rest) => Some (JStr (String c rest))
         | _ => dict_get d "api_key"
         end.
Proof.
  intros Hfile. unfold Config.main_config.
  assert (Hc : match Config.config_file a with
               | Some loaded => loaded
               | None => JDict []
               end = JDict d)
    by (destruct Hfile as [-> | [-> ->]]; reflexivity).
  rewrite Hc. clear Hc Hfile.
  destruct (String.eqb (Config.model a) "") eqn:Hm; cbn [negb bind py_setitem];
    destruct (Config.api_key_arg a) as [[|c rest]|];
    cbn [bind py_setitem]; eexists; (split; [reflexivity|]);
    rewrite dict_get_set_same;
    rewrite ?(dict_get_set_other _ "reasoning_effort" "model")
      by discriminate;
    rewrite ?(dict_get_set_other _ "reasoning_effort" "api_key")
      by discriminate;
    rewrite ?dict_get_set_same;
    rewrite ?(dict_get_set_other _ "api_key" "model") by discriminate;
    rewrite ?dict_get_set_same;
    rewrite ?(dict_get_set_other _ "model" "api_key") by discriminate;
    repeat split.
Qed.

(** X24: the model and the reasoning effort of the command line always
    win: with a model on the command line (the default [gpt-5-mini] when
    the option is not given), the runner uses that model and the given
    effort whatever the configuration file says about either. *)
Theorem X24_command_line_model_wins (getenv_key : option string)
    (client_ok : option json -> bool) (a : Config.args)
    (d : list (string * json)) (r : Config.runner) :
  Config.config_file a = Some (JDict d)
  \/ (Config.config_file a = None /\ d = []) ->
  Config.model a <> "" ->
  Config.main_runner getenv_key client_ok a = Ok r ->
  Config.model_id r = JStr (Config.model a)
  /\ Config.reasoning_effort r = JStr (Config.reasoning_effort_arg a).
Proof.
  intros Hfile Hm Hr.
  destruct (main_config_dict a d Hfile) as (d' & Hc & He & Hmod & _).
  apply String.eqb_neq in Hm. rewrite Hm in Hmod.
  unfold Config.main_runner in Hr. rewrite Hc in Hr. cbn [bind] in Hr.
  unfold Config.init in Hr.
  assert (Hd : match d' with
               | [] => []
               | _ :: _ => d'
               end = d') by (destruct d'; reflexivity).
  cbv zeta in Hr. rewrite Hd in Hr.
  destruct (client_ok _); [|discriminate].
  injection Hr as <-. cbn [Config.model_id Config.reasoning_effort].
  unfold get_or. rewrite He, Hmod. split; reflexivity.
Qed.

(** X25: the key of the client is the one of the command line when one
    is given; otherwise the [api_key] of the configuration file when it
    is truthy; otherwise the environment variable; and the client is
    built with that key when it is truthy, without a key otherwise. *)
Theorem X25_api_key_precedence (getenv_key : option string)
    (client_ok : option json -> bool) (a : Config.args)
    (d : list (string * json)) (r : Config.runner) :
  Config.config_file a = Some (JDict d)
  \/ (Config.config_file a = None /\ d = []) ->
  Config.main_runner getenv_key client_ok a = Ok r ->
  Config.api_key r
  = match Config.api_key_arg a with
    | Some (String c rest) => JStr (String c rest)
    | _ =>
        if py_truthy (get_or d "api_key" JNull)
        then get_or d "api_key" JNull
        else match getenv_key with
             | Some s => JStr s
             | None => JNull
             end
    end
  /\ Config.client_key r
     = (if py_truthy (Config.api_key r) then Some (Config.api_key r)
        else None).
Proof.
  intros Hfile Hr.
  destruct (main_config_dict a d Hfile) as (d' & Hc & _ & _ & Hkey).
  unfold Config.main_runner in Hr. rewrite Hc in Hr. cbn [bind] in Hr.
  unfold Config.init in Hr.
  assert (Hd : match d' with
               | [] => []
               | _ :: _ => d'
               end = d') by (destruct d'; reflexivity).
  cbv zeta in Hr. rewrite Hd in Hr.
  destruct (client_ok _); [|discriminate].
  injection Hr as <-. cbn [Config.api_key Config.client_key].
  split; [|reflexivity].
  unfold get_or. rewrite Hkey.
  destruct (Config.api_key_arg a) as [[|c rest]|]; reflexivity.
Qed.

(** X26: a configuration file that holds anything but an object (a list,
    a string, a number, [null]) makes [main] raise before the runner is
    built. *)
Theorem X26_config_must_be_an_object (getenv_key : option string)
    (client_ok : option json -> bool) (a : Config.args) (v : json) :
  Config.config_file a = Some v ->
  (forall d, v <> JDict d) ->
  Config.main_config a = Raise
  /\ Config.main_runner getenv_key client_ok a = Raise.
Proof.
  intros Hfile Hv.
  assert (H : Config.main_config a = Raise).
  { unfold Config.main_config. rewrite Hfile.
    destruct v as [| b | z | x | s | l | d];
      try (destruct (String.eqb (Config.model a) "");
           destruct (Config.api_key_arg a) as [[|c rest]|]; reflexivity).
    exfalso. exact (Hv d eq_refl). }
  split; [exact H|]. unfold Config.main_runner. rewrite H. reflexivity.
Qed.

(* ===================================================================== *)
(** ** The further properties at work in the two worlds *)
(* ===================================================================== *)

Lemma pool_call :
  chat_completions_create Demo2.world 0
    (request_of Demo2.world "m" "src/Pool.sol" "contract Pool.sol {}")
  = CallReturns (mkCompletion (Some (mkUsage (Some 100) (Some 20)))
                              (Some Demo2.pool_answer)).
Proof. reflexivity. Qed.

Lemma pool_analysis :
  analyze_file Demo2.world "m" 0 "src/Pool.sol" "contract Pool.sol {}"
  = (map (finding_of_dict Demo2.world "m" "src/Pool.sol") Demo2.pool_dicts,
     100, 20).
Proof.
  apply (analyze_file_of_dicts Demo2.world "m" 0 "src/Pool.sol"
           "contract Pool.sol {}" _ Demo2.pool_answer Demo2.pool_json
           Demo2.pool_dicts pool_call eq_refl);
    [discriminate | reflexivity | reflexivity].
Qed.


Lemma X5_witness :
  analyze_file Demo2.world "m" 1 "src/Mixed.sol" "contract Mixed.sol {}"
  = ([], 0, 0).
Proof.
  apply (X5_one_bad_candidate_loses_all Demo2.world "m" 1 "src/Mixed.sol"
           "contract Mixed.sol {}"
           (mkCompletion (Some (mkUsage (Some 50) (Some 10)))
                         (Some Demo2.mixed_answer))
           Demo2.mixed_answer Demo2.mixed_json
           [JDict [("title", JStr "A")]; JStr "oops"] (JStr "oops")
           eq_refl eq_refl);
    [discriminate | reflexivity | reflexivity | right; left; reflexivity
     | discriminate].
Defined.

Lemma X6_witness :
  analyze_file Demo2.world "m" 2 "src/Silent.sol" "contract Silent.sol {}"
  = ([], 7, 0).
Proof.
  apply (X6_empty_answer_keeps_tokens Demo2.world "m" 2 "src/Silent.sol"
           "contract Silent.sol {}"
           (mkCompletion (Some (mkUsage (Some 7) None)) None) eq_refl).
  left. reflexivity.
Defined.

Lemma X7_witness :
  let f := finding_of_dict Demo2.world "m" "src/Pool.sol"
             [("title", JStr "A")] in
  file f = "Pool.sol" /\ reported_by_model f = "m" /\ status f = "proposed"
  /\ id f = content_id Demo2.world "Pool.sol" (title f)
  /\ String.length (id f) = 16%nat.
Proof.
  cbv zeta.
  apply (X7_fields_set_by_runner Demo2.world "m" 0 "src/Pool.sol"
           "contract Pool.sol {}").
  rewrite pool_analysis. left. reflexivity.
Defined.

Lemma X8_witness :
  normalize Demo2.world "m" "src/Shadow.sol" Demo2.shadow_json = Raise.
Proof.
  apply (proj1 (X8_findings_key_shadows Demo2.world "m" "src/Shadow.sol"
                  [("findings", JNull);
                   ("vulnerabilities", JList [JDict [("title", JStr "B")]])]
                  JNull eq_refl eq_refl)).
Defined.

Lemma demo2_set_semantics : set_semantics Demo2.world.
Proof.
  intros files. split; [apply NoDup_nodup | intros f; apply nodup_In].
Qed.

(** [a[1].sol] is no glob match of its own name and is found all the
    same. *)
Lemma X9_witness :
  glob Demo2.world "src" "a[1].sol" = Ok []
  /\ select_files Demo2.world "src" (Some ["./a[1].sol"])
     = Ok ["src/a[1].sol"]
  /\ In "src/a[1].sol" ["src/a[1].sol"].
Proof.
  assert (Hsel : select_files Demo2.world "src" (Some ["./a[1].sol"])
                 = Ok ["src/a[1].sol"]) by (vm_compute; reflexivity).
  split; [reflexivity|]. split; [exact Hsel|].
  apply (proj2 (X9_selection_with_patterns Demo2.world "src" "./a[1].sol"
                  [] ["src/a[1].sol"] demo2_set_semantics Hsel
                  "src/a[1].sol")).
  split; [reflexivity|]. split; [reflexivity|].
  exists "./a[1].sol". split; [left; reflexivity|]. right. reflexivity.
Defined.

Lemma X10_witness :
  select_files Demo2.world "src" None = Ok Demo2.selected
  /\ exists p,
       In p ["**/*.sol"; "**/*.vy"; "**/*.cairo"; "**/*.rs"; "**/*.move"]
       /\ globbed_by Demo2.world "src" p "src/Pool.sol".
Proof.
  assert (Hsel : select_files Demo2.world "src" None = Ok Demo2.selected)
    by (vm_compute; reflexivity).
  split; [exact Hsel|].
  apply (proj1 (X10_selection_by_default Demo2.world "src" None
                  Demo2.selected demo2_set_semantics (or_introl eq_refl)
                  Hsel "src/Pool.sol")).
  left. reflexivity.
Defined.

Lemma X11_witness :
  analyze_project Demo2.world "m" "demo2" "src" (Some ["Pool.sol"; "./"])
  = Raise.
Proof.
  apply (X11_refused_pattern_aborts Demo2.world "src" "m" "demo2"
           ["Pool.sol"; "./"] "./").
  - right. left. reflexivity.
  - reflexivity.
Defined.

Lemma X12_witness :
  select_files Demo2.world "src" (Some ["./Pool.sol"; "./a[1].sol"])
  = select_files Demo2.world "src" (Some ["Pool.sol"; "a[1].sol"]).
Proof.
  apply (X12_dot_slash_prefix_ignored Demo2.world "src"
           ["Pool.sol"; "a[1].sol"]).
  intros p [<-|[<-|[]]]; reflexivity.
Defined.

Lemma demo_run :
  analyze_project Demo.world "gpt-5-mini" "demo" "proj" None
  = Ok (fst Demo.run, snd Demo.run).
Proof. vm_compute. reflexivity. Qed.

Lemma X13_witness :
  exists files,
    select_files Demo.world "proj" None = Ok files
    /\ (files_analyzed (fst Demo.run) + files_skipped (fst Demo.run))%nat
       = List.length files
    /\ files_analyzed (fst Demo.run) = List.length (snd Demo.run).
Proof.
  exact (X13_every_file_counted_once Demo.world "gpt-5-mini" "demo" "proj"
           None (fst Demo.run) (snd Demo.run) demo_run).
Defined.

Lemma X14_witness :
  let (i, o) := tokens_of_calls Demo.world "gpt-5-mini" 0 (snd Demo.run) in
  dict_get (token_usage (fst Demo.run)) "input_tokens" = Some i
  /\ dict_get (token_usage (fst Demo.run)) "output_tokens" = Some o
  /\ dict_get (token_usage (fst Demo.run)) "total_tokens" = Some (i + o)
  /\ map fst (token_usage (fst Demo.run))
     = ["input_tokens"; "output_tokens"; "total_tokens"].
Proof.
  exact (X14_token_usage_is_the_sum Demo.world "gpt-5-mini" "demo" "proj"
           None (fst Demo.run) (snd Demo.run) demo_run).
Defined.

Lemma X16_witness :
  exists files fp content d,
    select_files Demo.world "proj" None = Ok files
    /\ In fp files
    /\ In (fp, content) (snd Demo.run)
    /\ read_text Demo.world fp = Some content
    /\ blank content = false
    /\ Demo.vault_finding = finding_of_dict Demo.world "gpt-5-mini" fp d
    /\ file Demo.vault_finding = name Demo.world fp
    /\ reported_by_model Demo.vault_finding = "gpt-5-mini".
Proof.
  apply (X16_result_findings_come_from_calls Demo.world "gpt-5-mini" "demo"
           "proj" None (fst Demo.run) (snd Demo.run) Demo.vault_finding
           demo_run).
  left. reflexivity.
Defined.



Lemma odd_run :
  analyze_project Demo2.world "m" "odd" "odd" None
  = Ok (fst Demo2.odd_run, snd Demo2.odd_run).
Proof. vm_compute. reflexivity. Qed.




Lemma X21_witness :
  exists docs,
    dict_get (result_dict (fst Demo.run)) "findings" = Some (JList docs)
    /\ dict_get (result_dict (fst Demo.run)) "total_findings"
       = Some (JInt (Z.of_nat (List.length docs)))
    /\ NoDup (map (fun doc => match doc with
                              | JDict d => dict_get d "id"
                              | _ => None
                              end) docs)
    /\ map fst (result_dict (fst Demo.run))
       = ["project"; "timestamp"; "files_analyzed"; "files_skipped";
          "total_findings"; "findings"; "token_usage"].
Proof.
  exact (X21_saved_document_of_a_run Demo.world "gpt-5-mini" "demo" "proj"
           None (fst Demo.run) (snd Demo.run) demo_run).
Defined.


Lemma X24_witness :
  exists r,
    Config.main_runner None (fun _ => true) Demo2.args_with_file = Ok r
    /\ Config.model_id r = JStr "gpt-4o"
    /\ Config.reasoning_effort r = JStr "high".
Proof.
  eexists. split; [reflexivity|].
  exact (X24_command_line_model_wins None (fun _ => true)
           Demo2.args_with_file
           [("model", JStr "other"); ("api_key", JStr "from-file")] _
           (or_introl eq_refl) ltac:(discriminate) eq_refl).
Defined.

Lemma X25_witness :
  exists r,
    Config.main_runner (Some "from-env") (fun _ => true)
                       Demo2.args_with_file = Ok r
    /\ Config.api_key r = JStr "from-file"
    /\ Config.client_key r = Some (JStr "from-file").
Proof.
  eexists. split; [reflexivity|].
  exact (X25_api_key_precedence (Some "from-env") (fun _ => true)
           Demo2.args_with_file
           [("model", JStr "other"); ("api_key", JStr "from-file")] _
           (or_introl eq_refl) eq_refl).
Defined.

Lemma X26_witness :
  Config.main_config (Config.mkArgs "gpt-4o" None "high" (Some (JList [])))
  = Raise.
Proof.
  apply (proj1 (X26_config_must_be_an_object None (fun _ => true)
                  (Config.mkArgs "gpt-4o" None "high" (Some (JList [])))
                  (JList []) eq_refl ltac:(discriminate))).
Defined.

Lemma X20_witness :
  result_dict (fst Demo.run) = result_dict (fst Demo.run)
  /\ fst Demo.run = fst Demo.run.
Proof.
  split; [reflexivity|].
  exact (X20_saved_document_determines_result (fst Demo.run) (fst Demo.run)
           eq_refl).
Defined.
